(** * finSight backend: the asset and auth controllers

    A shallow embedding of [backend/src/controllers/assetController.ts] and
    [backend/src/controllers/authController.ts], with the part of the Prisma
    store these handlers talk to.

    - Request bodies are untyped in the source ([req.body]); their fields are
      JavaScript scalars here (undefined, null, booleans, numbers, strings).
      Arrays and objects in a body are outside the model.
    - Strings are byte strings; [toUpperCase] and [.length] are those of
      ASCII text.
    - Every handler is an [async] function whose body is one [try]/[catch]:
      a handler is a program over the store's queries ([Prog]), each [await]
      is one node of it, and a rejected promise is an exception that the
      enclosing [catch] turns into the 500 response. *)

From stdpp Require Import gmap strings list fin_maps sorting.

Open Scope string_scope.
Open Scope Z_scope.

(** ** JavaScript values *)

Inductive JsValue : Type :=
| JUndefined
| JNull
| JBool (b : bool)
| JNum (n : Z)
| JStr (s : string).

#[global] Instance JsValue_eq_dec : EqDecision JsValue.
Proof. solve_decision. Defined.

(** ToBoolean: [undefined], [null], [false], [0] and the empty string are
    falsy, everything else is truthy. *)
Definition truthy (v : JsValue) : bool :=
  match v with
  | JUndefined | JNull => false
  | JBool b => b
  | JNum n => negb (n =? 0)
  | JStr s => negb (String.eqb s "")
  end.

(** [a || b] *)
Definition js_or (a b : JsValue) : JsValue := if truthy a then a else b.

(** [a === b] on scalars *)
Definition strict_eq (a b : JsValue) : bool := bool_decide (a = b).

(** What a handler's [catch] can receive: a TypeError of the language, the
    two errors of the Prisma client (an argument of the wrong type; a request
    the store refuses, with its code), or the rejection of another awaited
    helper. *)
Inductive Exn : Type :=
| TypeError
| PrismaClientValidationError
| PrismaClientKnownRequestError (code : string)
| Rejected.

Definition upper_ascii (c : Ascii.ascii) : Ascii.ascii :=
  let n := Ascii.N_of_ascii c in
  if ((97 <=? n) && (n <=? 122))%N then Ascii.ascii_of_N (n - 32) else c.

Fixpoint upper_string (s : string) : string :=
  match s with
  | EmptyString => EmptyString
  | String c r => String (upper_ascii c) (upper_string r)
  end.

(** [v.toUpperCase()]: a method of strings only; on [undefined] and [null]
    the property access throws, on a number or a boolean the property is
    [undefined] and the call throws. *)
Definition toUpperCase (v : JsValue) : Exn + string :=
  match v with
  | JStr s => inr (upper_string s)
  | _ => inl TypeError
  end.

(** [v.length]: the length of a string, [undefined] on a number or a
    boolean, a TypeError on [undefined] and [null]. *)
Definition js_length (v : JsValue) : Exn + JsValue :=
  match v with
  | JStr s => inr (JNum (Z.of_nat (String.length s)))
  | JNum _ | JBool _ => inr JUndefined
  | JUndefined | JNull => inl TypeError
  end.

(** [v < n] for a number [n], where [v] is a number or [undefined] (the two
    results of [js_length]); [undefined] is NaN as a number and compares
    false. *)
Definition js_lt_num (v : JsValue) (n : Z) : bool :=
  match v with
  | JNum m => m <? n
  | _ => false
  end.

(** ** Records of the store *)

(** An [Asset] row. The [updatedAt] column is written by the store alone and
    read by no handler; it is left out. *)
Record Asset : Type := mkAsset {
  asset_id : Z;
  asset_userId : Z;
  asset_symbol : string;
  asset_name : string;
  asset_type : string;
  asset_notes : option string;
  asset_createdAt : Z;
}.

Record User : Type := mkUser {
  user_id : Z;
  user_email : string;
  user_username : string;
  user_password : string;
  user_createdAt : Z;
}.

#[global] Instance Asset_eq_dec : EqDecision Asset.
Proof. solve_decision. Defined.

#[global] Instance User_eq_dec : EqDecision User.
Proof. solve_decision. Defined.

(** [JwtPayload] of [utils/jwt.ts] *)
Record JwtPayload : Type := mkJwtPayload {
  jwt_userId : Z;
  jwt_email : string;
  jwt_username : string;
}.

(** A nullable string column as the JavaScript value the client reads. *)
Definition js_of_nullable (o : option string) : JsValue :=
  match o with
  | Some s => JStr s
  | None => JNull
  end.

(** ** The store

    Modelled from the spec: [prisma/schema.prisma] and [config/database.ts]
    are not among the sources. The columns are those of the spec's data
    model and of the handlers' queries; [id] is an autoincrement key,
    [createdAt] defaults to the time of the insert, [(userId, symbol)] is
    unique on assets (the handlers query the compound key [userId_symbol]),
    [email] and [username] are each unique on users.

    Assets are keyed by [id]. Users are kept in the order in which the store
    scans them, which is the order [findFirst] without [orderBy] follows. *)
Record Db : Type := mkDb {
  assets : gmap Z Asset;
  nextAssetId : Z;
  users : list User;
  nextUserId : Z;
  now : Z;
}.

Record AssetCreateInput : Type := mkAssetCreateInput {
  aci_userId : Z;
  aci_symbol : string;
  aci_name : JsValue;
  aci_type : JsValue;
  aci_notes : JsValue;
}.

Record AssetUpdateInput : Type := mkAssetUpdateInput {
  aui_name : JsValue;
  aui_type : JsValue;
  aui_notes : JsValue;
}.

Record UserCreateInput : Type := mkUserCreateInput {
  uci_email : JsValue;
  uci_username : JsValue;
  uci_password : string;
}.

(** The Prisma calls of the two controllers, indexed by what they resolve
    to. *)
Inductive Query : Type -> Type :=
| asset_findMany (userId : Z) : Query (list Asset)
    (* findMany({ where: { userId }, orderBy: { createdAt: 'desc' } }) *)
| asset_findUnique_userId_symbol (userId : Z) (symbol : string) : Query (option Asset)
    (* findUnique({ where: { userId_symbol: { userId, symbol } } }) *)
| asset_findUnique_id (id : Z) : Query (option Asset)
    (* findUnique({ where: { id } }) *)
| asset_create (data : AssetCreateInput) : Query Asset
| asset_update (id : Z) (data : AssetUpdateInput) : Query Asset
| asset_delete (id : Z) : Query Asset
| user_findFirst (email username : JsValue) : Query (option User)
    (* findFirst({ where: { OR: [{ email }, { username }] } }) *)
| user_create (data : UserCreateInput) : Query User.

Definition newer_first (a b : Asset) : Prop := asset_createdAt b ≤ asset_createdAt a.

#[global] Instance newer_first_dec a b : Decision (newer_first a b).
Proof. unfold newer_first. apply _. Defined.

Definition rows (db : Db) : list Asset := (map_to_list (assets db)).*2.

Definition owned_by (u : Z) (a : Asset) : Prop := asset_userId a = u.

#[global] Instance owned_by_dec u a : Decision (owned_by u a).
Proof. unfold owned_by. apply _. Defined.

Definition has_key (u : Z) (s : string) (a : Asset) : Prop :=
  asset_userId a = u ∧ asset_symbol a = s.

#[global] Instance has_key_dec u s a : Decision (has_key u s a).
Proof. unfold has_key. apply _. Defined.

(** A [String] column takes a string and nothing else. *)
Definition as_string (v : JsValue) : option string :=
  match v with
  | JStr s => Some s
  | _ => None
  end.

(** A [String?] column takes a string or [null]; an [undefined] field of
    [data] is a field not given, which is [null] on create. *)
Definition as_nullable_string (v : JsValue) : option (option string) :=
  match v with
  | JStr s => Some (Some s)
  | JNull | JUndefined => Some None
  | _ => None
  end.

(** On update a field of [data] that is [undefined] is a field not given:
    the column keeps its value. *)
Inductive Patch (A : Type) : Type :=
| keep
| put (x : A).

Arguments keep {A}.
Arguments put {A} x.

Definition patch {A : Type} (p : Patch A) (old : A) : A :=
  match p with
  | keep => old
  | put x => x
  end.

Definition string_patch (v : JsValue) : option (Patch string) :=
  match v with
  | JUndefined => Some keep
  | JStr s => Some (put s)
  | _ => None
  end.

Definition nullable_string_patch (v : JsValue) : option (Patch (option string)) :=
  match v with
  | JUndefined => Some keep
  | JNull => Some (put None)
  | JStr s => Some (put (Some s))
  | _ => None
  end.

Definition user_matches (email username : string) (u : User) : Prop :=
  user_email u = email ∨ user_username u = username.

#[global] Instance user_matches_dec e n u : Decision (user_matches e n u).
Proof. unfold user_matches. apply _. Defined.

(** P2002: a unique constraint failed. P2025: the record to update or
    delete was not found. *)
Definition P2002 : Exn := PrismaClientKnownRequestError "P2002".
Definition P2025 : Exn := PrismaClientKnownRequestError "P2025".

Definition set_assets (db : Db) (m : gmap Z Asset) : Db :=
  mkDb m (nextAssetId db) (users db) (nextUserId db) (now db).

(** Modelled from the spec: the schema that fixes what the store accepts is
    not among the sources. What the store answers to a query, and the store
    after it. A query whose argument has the wrong type for its column is
    refused by the client before it reaches the store; an insert that
    repeats a unique key fails with P2002; an update or a delete of an id
    that is not there fails with P2025; a failed query leaves the store as
    it was. *)
Definition exec {R : Type} (q : Query R) (db : Db) : (Exn + R) * Db :=
  match q in Query R return (Exn + R) * Db with
  | asset_findMany u =>
      (inr (merge_sort newer_first (filter (owned_by u) (rows db))), db)
  | asset_findUnique_userId_symbol u s =>
      (inr (head (filter (has_key u s) (rows db))), db)
  | asset_findUnique_id i =>
      (inr (assets db !! i), db)
  | asset_create d =>
      match as_string (aci_name d), as_string (aci_type d),
            as_nullable_string (aci_notes d) with
      | Some n, Some t, Some o =>
          let i := nextAssetId db in
          if decide (filter (has_key (aci_userId d) (aci_symbol d)) (rows db) ≠ []
                     ∨ is_Some (assets db !! i))
          then (inl P2002, db)
          else
            let a := mkAsset i (aci_userId d) (aci_symbol d) n t o (now db) in
            (inr a, mkDb (<[i := a]> (assets db)) (i + 1)
                         (users db) (nextUserId db) (now db))
      | _, _, _ => (inl PrismaClientValidationError, db)
      end
  | asset_update i d =>
      match string_patch (aui_name d), string_patch (aui_type d),
            nullable_string_patch (aui_notes d) with
      | Some n, Some t, Some o =>
          match assets db !! i with
          | Some a =>
              let a' := mkAsset (asset_id a) (asset_userId a) (asset_symbol a)
                                (patch n (asset_name a)) (patch t (asset_type a))
                                (patch o (asset_notes a)) (asset_createdAt a) in
              (inr a', set_assets db (<[i := a']> (assets db)))
          | None => (inl P2025, db)
          end
      | _, _, _ => (inl PrismaClientValidationError, db)
      end
  | asset_delete i =>
      match assets db !! i with
      | Some a => (inr a, set_assets db (delete i (assets db)))
      | None => (inl P2025, db)
      end
  | user_findFirst e n =>
      match as_string e, as_string n with
      | Some e, Some n => (inr (head (filter (user_matches e n) (users db))), db)
      | _, _ => (inl PrismaClientValidationError, db)
      end
  | user_create d =>
      match as_string (uci_email d), as_string (uci_username d) with
      | Some e, Some n =>
          if decide (filter (user_matches e n) (users db) ≠ [])
          then (inl P2002, db)
          else
            let u := mkUser (nextUserId db) e n (uci_password d) (now db) in
            (inr u, mkDb (assets db) (nextAssetId db) (users db ++ [u])
                         (nextUserId db + 1) (now db))
      | _, _ => (inl PrismaClientValidationError, db)
      end
  end.

(** ** Handlers as programs *)

Inductive Prog (A : Type) : Type :=
| Ret (a : A)
| Throw (e : Exn)
| Await {R : Type} (q : Query R) (k : Exn + R → Prog A).

Arguments Ret {A} a.
Arguments Throw {A} e.
Arguments Await {A R} q k.

Fixpoint bind {A B : Type} (p : Prog A) (f : A → Prog B) : Prog B :=
  match p with
  | Ret a => f a
  | Throw e => Throw e
  | Await q k => Await q (λ r, bind (k r) f)
  end.

(** [await q]: the value the promise resolves to, or the exception it
    rejects with, thrown where the [await] stands. *)
Definition await {R : Type} (q : Query R) : Prog R :=
  Await q (λ r, match r with inl e => Throw e | inr v => Ret v end).

(** A synchronous call that may throw. *)
Definition call {A : Type} (r : Exn + A) : Prog A :=
  match r with
  | inl e => Throw e
  | inr v => Ret v
  end.

(** [try { p } catch (error) { h error }] *)
Fixpoint try_catch {A : Type} (p : Prog A) (h : Exn → Prog A) : Prog A :=
  match p with
  | Ret a => Ret a
  | Throw e => h e
  | Await q k => Await q (λ r, try_catch (k r) h)
  end.

#[global] Instance Prog_ret : MRet Prog := @Ret.
#[global] Instance Prog_bind : MBind Prog := λ A B f p, bind p f.

(** One executed query, whatever it resolves to. *)
Definition AnyQuery : Type := sigT Query.

(** A run of a handler. Other requests are served between the awaits of this
    one: [env] lists what they do to the store, one step before each query of
    this handler (no step once the list is used up). The run gives the result,
    the store at the end, and the queries executed in order. *)
Definition interfere (env : list (Db → Db)) (db : Db) : Db :=
  match env with
  | [] => db
  | f :: _ => f db
  end.

Fixpoint run_with {A : Type} (env : list (Db → Db)) (p : Prog A) (db : Db)
  : (Exn + A) * Db * list AnyQuery :=
  match p with
  | Ret a => (inr a, db, [])
  | Throw e => (inl e, db, [])
  | Await q k =>
      let db1 := interfere env db in
      let '(r, db2) := exec q db1 in
      let '(res, db3, t) := run_with (tail env) (k r) db2 in
      (res, db3, existT _ q :: t)
  end.

(** A handler served alone. *)
Definition run {A : Type} (p : Prog A) (db : Db) : (Exn + A) * Db * list AnyQuery :=
  run_with [] p db.

(** ** Responses *)

Record PublicUser : Type := mkPublicUser {
  pu_id : Z;
  pu_email : string;
  pu_username : string;
  pu_createdAt : option Z;
}.

Inductive Body : Type :=
| error_json (error : string)                      (* { error } *)
| assets_json (assets : list Asset)                (* { assets } *)
| asset_json (message : string) (asset : Asset)    (* { message, asset } *)
| message_json (message : string)                  (* { message } *)
| auth_json (message : string) (user : PublicUser) (token : string).
                                                   (* { message, user, token } *)

Record Response : Type := mkResponse {
  status : Z;
  body : Body;
}.

(** [res.status(c).json(b)] and [res.json(b)], whose status is 200. *)
Definition res_status_json (c : Z) (b : Body) : Response := mkResponse c b.
Definition res_json (b : Body) : Response := mkResponse 200 b.

(** ** Requests *)

(** [req.user] is what [authMiddleware] decoded from the token, if it ran;
    [req_params_id] is [parseInt(req.params.id)] (a route parameter that
    starts with no integer gives NaN, which is outside the model);
    [req_body] is the parsed JSON body. *)
Record Request : Type := mkRequest {
  req_user : option JwtPayload;
  req_params_id : Z;
  req_body : gmap string JsValue;
}.

(** Reading a property of the body: [undefined] when the key is absent. *)
Definition field (o : gmap string JsValue) (k : string) : JsValue :=
  default JUndefined (o !! k).

(** [req.user?.userId] *)
Definition userId_of (req : Request) : option Z := jwt_userId <$> req_user req.

Definition server_error : Exn → Prog Response :=
  λ _, Ret (res_status_json 500 (error_json "服务器错误")).

Definition unauthorized : Response := res_status_json 401 (error_json "未授权").

(** ** assetController.ts *)

Definition getAssets (req : Request) : Prog Response :=
  try_catch
    (match userId_of req with
     | None => Ret unauthorized
     | Some userId =>
         if negb (truthy (JNum userId)) then Ret unauthorized
         else
           assets ← await (asset_findMany userId);
           Ret (res_json (assets_json assets))
     end)
    server_error.

Definition addAsset (req : Request) : Prog Response :=
  try_catch
    (match userId_of req with
     | None => Ret unauthorized
     | Some userId =>
         if negb (truthy (JNum userId)) then Ret unauthorized
         else
           let symbol := field (req_body req) "symbol" in
           let name := field (req_body req) "name" in
           let type := field (req_body req) "type" in
           let notes := field (req_body req) "notes" in
           if negb (truthy symbol) || negb (truthy name) || negb (truthy type)
           then Ret (res_status_json 400 (error_json "资产代码、名称和类型都是必填项"))
           else
             upper ← call (toUpperCase symbol);
             existingAsset ← await (asset_findUnique_userId_symbol userId upper);
             match existingAsset with
             | Some _ => Ret (res_status_json 400 (error_json "该资产已在您的列表中"))
             | None =>
                 upper' ← call (toUpperCase symbol);
                 asset ← await (asset_create
                                  (mkAssetCreateInput userId upper' name type
                                                      (js_or notes JNull)));
                 Ret (res_status_json 201 (asset_json "资产添加成功" asset))
             end
     end)
    server_error.

Definition not_found : Response := res_status_json 404 (error_json "资产不存在").

Definition updateAsset (req : Request) : Prog Response :=
  try_catch
    (let assetId := req_params_id req in
     match userId_of req with
     | None => Ret unauthorized
     | Some userId =>
         if negb (truthy (JNum userId)) then Ret unauthorized
         else
           let name := field (req_body req) "name" in
           let type := field (req_body req) "type" in
           let notes := field (req_body req) "notes" in
           found ← await (asset_findUnique_id assetId);
           match found with
           | None => Ret not_found
           | Some asset =>
               if negb (strict_eq (JNum (asset_userId asset)) (JNum userId))
               then Ret not_found
               else
                 updatedAsset ← await (asset_update assetId
                   (mkAssetUpdateInput
                      (js_or name (JStr (asset_name asset)))
                      (js_or type (JStr (asset_type asset)))
                      (if negb (strict_eq notes JUndefined) then notes
                       else js_of_nullable (asset_notes asset))));
                 Ret (res_json (asset_json "资产更新成功" updatedAsset))
           end
     end)
    server_error.

Definition deleteAsset (req : Request) : Prog Response :=
  try_catch
    (let assetId := req_params_id req in
     match userId_of req with
     | None => Ret unauthorized
     | Some userId =>
         if negb (truthy (JNum userId)) then Ret unauthorized
         else
           found ← await (asset_findUnique_id assetId);
           match found with
           | None => Ret not_found
           | Some asset =>
               if negb (strict_eq (JNum (asset_userId asset)) (JNum userId))
               then Ret not_found
               else
                 _ ← await (asset_delete assetId);
                 Ret (res_json (message_json "资产删除成功"))
           end
     end)
    server_error.

(** ** authController.ts *)

Section AuthController.

(** [hashPassword] and [comparePassword] of [utils/password.ts], which is
    not among the sources, and [generateToken] of [utils/jwt.ts], which
    signs with a library: all three are parameters. The first two are
    awaited and may reject. *)
Variable hashPassword : JsValue → Exn + string.
Variable comparePassword : JsValue → string → Exn + bool.
Variable generateToken : JwtPayload → string.

Definition register (req : Request) : Prog Response :=
  try_catch
    (let email := field (req_body req) "email" in
     let username := field (req_body req) "username" in
     let password := field (req_body req) "password" in
     if negb (truthy email) || negb (truthy username) || negb (truthy password)
     then Ret (res_status_json 400 (error_json "邮箱、用户名和密码都是必填项"))
     else
       len ← call (js_length password);
       if js_lt_num len 6
       then Ret (res_status_json 400 (error_json "密码长度至少为 6 位"))
       else
         existingUser ← await (user_findFirst email username);
         let create :=
           hashedPassword ← call (hashPassword password);
           user ← await (user_create (mkUserCreateInput email username hashedPassword));
           let token := generateToken
             (mkJwtPayload (user_id user) (user_email user) (user_username user)) in
           Ret (res_status_json 201
                  (auth_json "注册成功"
                     (mkPublicUser (user_id user) (user_email user)
                                   (user_username user) (Some (user_createdAt user)))
                     token)) in
         match existingUser with
         | Some existing =>
             if strict_eq (JStr (user_email existing)) email
             then Ret (res_status_json 400 (error_json "该邮箱已被注册"))
             else if strict_eq (JStr (user_username existing)) username
             then Ret (res_status_json 400 (error_json "该用户名已被使用"))
             else create
         | None => create
         end)
    server_error.

Definition invalid_credentials : Response :=
  res_status_json 401 (error_json "用户名/邮箱或密码错误").

Definition login (req : Request) : Prog Response :=
  try_catch
    (let emailOrUsername := field (req_body req) "emailOrUsername" in
     let password := field (req_body req) "password" in
     if negb (truthy emailOrUsername) || negb (truthy password)
     then Ret (res_status_json 400 (error_json "邮箱/用户名和密码都是必填项"))
     else
       found ← await (user_findFirst emailOrUsername emailOrUsername);
       match found with
       | None => Ret invalid_credentials
       | Some user =>
           isPasswordValid ← call (comparePassword password (user_password user));
           if negb isPasswordValid
           then Ret invalid_credentials
           else
             let token := generateToken
               (mkJwtPayload (user_id user) (user_email user) (user_username user)) in
             Ret (res_json
                    (auth_json "登录成功"
                       (mkPublicUser (user_id user) (user_email user)
                                     (user_username user) None)
                       token))
       end)
    server_error.

End AuthController.

(** ** Names for what the properties speak of *)

(** The responses of the handlers' failure branches. *)
Definition conflict : Response :=
  res_status_json 400 (error_json "该资产已在您的列表中").

Definition internal_error : Response :=
  res_status_json 500 (error_json "服务器错误").

(** The [data] that [addAsset] passes to the store, [upper] being
    [symbol.toUpperCase()]. *)
Definition create_data (req : Request) (u : Z) (upper : string) : AssetCreateInput :=
  mkAssetCreateInput u upper (field (req_body req) "name")
    (field (req_body req) "type") (js_or (field (req_body req) "notes") JNull).

(** A field of the body that passes the handlers' [!field] tests. *)
Definition present (req : Request) (k : string) : Prop :=
  truthy (field (req_body req) k) = true.

Definition email_taken : Response :=
  res_status_json 400 (error_json "该邮箱已被注册").

Definition username_taken : Response :=
  res_status_json 400 (error_json "该用户名已被使用").

(** The [data] that [updateAsset] passes to the store for asset [a]. *)
Definition update_data (req : Request) (a : Asset) : AssetUpdateInput :=
  mkAssetUpdateInput
    (js_or (field (req_body req) "name") (JStr (asset_name a)))
    (js_or (field (req_body req) "type") (JStr (asset_type a)))
    (if negb (strict_eq (field (req_body req) "notes") JUndefined)
     then field (req_body req) "notes"
     else js_of_nullable (asset_notes a)).

(** [!userId]: no identity on the request, or the id 0. *)
Definition no_identity (req : Request) : Prop :=
  userId_of req = None ∨ userId_of req = Some 0.

(** The request with the [notes] key taken out of its body. *)
Definition without_notes (req : Request) : Request :=
  mkRequest (req_user req) (req_params_id req) (delete "notes" (req_body req)).

(** ** Sample data *)

Definition alice : User := mkUser 1 "a@x.com" "alice" "hash:secret1" 10.
Definition bob : User := mkUser 2 "b@x.com" "bob" "hash:hunter22" 20.

Definition alice_token : JwtPayload := mkJwtPayload 1 "a@x.com" "alice".
Definition bob_token : JwtPayload := mkJwtPayload 2 "b@x.com" "bob".

Definition bob_aapl : Asset :=
  mkAsset 1 2 "AAPL" "Apple" "stock" (Some "long term") 100.
Definition bob_btc : Asset :=
  mkAsset 2 2 "BTC" "Bitcoin" "crypto" None 150.
Definition alice_eth : Asset :=
  mkAsset 3 1 "ETH" "Ether" "crypto" (Some "watch") 120.

Definition sample_db : Db :=
  mkDb (<[3 := alice_eth]> (<[2 := bob_btc]> (<[1 := bob_aapl]> ∅))) 4
       [alice; bob] 3 200.

Definition empty_db : Db := mkDb ∅ 1 [] 1 0.

Definition json_object (l : list (string * JsValue)) : gmap string JsValue :=
  list_to_map l.

Definition bob_adds_btc : Request :=
  mkRequest (Some bob_token) 0
    (json_object [("symbol", JStr "btc"); ("name", JStr "Bitcoin");
                  ("type", JStr "crypto")]).

Definition bob_adds_aapl : Request :=
  mkRequest (Some bob_token) 0
    (json_object [("symbol", JStr "aapl"); ("name", JStr "Apple Inc");
                  ("type", JStr "stock")]).

Definition alice_adds_btc : Request :=
  mkRequest (Some alice_token) 0
    (json_object [("symbol", JStr "btc"); ("name", JStr "Bitcoin");
                  ("type", JStr "crypto"); ("notes", JStr "")]).

Definition alice_btc : Asset := mkAsset 4 1 "BTC" "Bitcoin" "crypto" None 200.

Definition bob_clears_notes : Request :=
  mkRequest (Some bob_token) 1 (json_object [("notes", JStr "")]).

Definition bob_aapl_cleared : Asset :=
  mkAsset 1 2 "AAPL" "Apple" "stock" (Some "") 100.

Definition sample_db_cleared : Db :=
  set_assets sample_db (<[1 := bob_aapl_cleared]> (assets sample_db)).

(** The store after a handler has been served alone. *)
Definition served (p : Prog Response) (db : Db) : Db := (run p db).1.2.

Definition sample_hashPassword (v : JsValue) : Exn + string :=
  match v with
  | JStr s => inr (String.append "hash:" s)
  | _ => inl TypeError
  end.

Definition sample_comparePassword (v : JsValue) (h : string) : Exn + bool :=
  match v with
  | JStr s => inr (String.eqb h (String.append "hash:" s))
  | _ => inl TypeError
  end.

Definition sample_generateToken (p : JwtPayload) : string :=
  String.append "token:" (jwt_username p).

Definition login_ghost : Request :=
  mkRequest None 0
    (json_object [("emailOrUsername", JStr "ghost"); ("password", JStr "secret1")]).

Definition login_alice_wrong : Request :=
  mkRequest None 0
    (json_object [("emailOrUsername", JStr "alice"); ("password", JStr "letmein")]).

(** The email of [bob] with the username of [alice]. *)
Definition register_crossed : Request :=
  mkRequest None 0
    (json_object [("email", JStr "b@x.com"); ("username", JStr "alice");
                  ("password", JStr "secret1")]).

Definition register_alice : Request :=
  mkRequest None 0
    (json_object [("email", JStr "a@x.com"); ("username", JStr "alice");
                  ("password", JStr "secret1")]).

Definition login_alice : Request :=
  mkRequest None 0
    (json_object [("emailOrUsername", JStr "alice"); ("password", JStr "secret1")]).

Definition alice_adds (symbol : string) : Request :=
  mkRequest (Some alice_token) 0
    (json_object [("symbol", JStr symbol); ("name", JStr "Bitcoin");
                  ("type", JStr "crypto")]).

(** The status of the response a run ends with. *)
Definition status_of (r : (Exn + Response) * Db * list AnyQuery) : option Z :=
  match r.1.1 with
  | inr resp => Some (status resp)
  | inl _ => None
  end.

(** The email of [alice] with a username nobody has. *)
Definition register_taken_email : Request :=
  mkRequest None 0
    (json_object [("email", JStr "a@x.com"); ("username", JStr "carol");
                  ("password", JStr "secret1")]).

(** ** middleware/auth.ts *)

(** [s.startsWith(p)] *)
Definition startsWith (s p : string) : bool := String.prefix p s.

(** [s.substring(n)]: what is left of [s] from index [n] on, nothing when
    [s] is shorter. *)
Fixpoint substring_from (n : nat) (s : string) : string :=
  match n, s with
  | O, _ => s
  | S m, String _ r => substring_from m r
  | S _, EmptyString => EmptyString
  end.

(** [req.user = decoded] *)
Definition set_user (req : Request) (decoded : JwtPayload) : Request :=
  mkRequest (Some decoded) (req_params_id req) (req_body req).

Section AuthMiddleware.

(** [verifyToken] of [utils/jwt.ts] is [jwt.verify] with the secret: a
    parameter, which gives the claims or throws. *)
Variable verifyToken : string → Exn + JwtPayload.

(** The middleware reads the request headers, under their lower-case names
    as Node gives them. It answers itself (left) or calls [next()] on the
    request with [req.user] set (right). *)
Definition authMiddleware (headers : gmap string string) (req : Request)
  : Response + Request :=
  let authHeader := headers !! "authorization" in
  match authHeader with
  | None => inl (res_status_json 401 (error_json "未提供认证令牌"))
  | Some h =>
      if negb (truthy (JStr h)) || negb (startsWith h "Bearer ")
      then inl (res_status_json 401 (error_json "未提供认证令牌"))
      else
        let token := substring_from 7 h in
        match verifyToken token with
        | inr decoded => inr (set_user req decoded)
        | inl _ => inl (res_status_json 401 (error_json "无效或过期的令牌"))
        end
  end.

(** ** routes/assetRoutes.ts *)

Inductive Method : Type := GET | POST | PUT | DELETE.

(** The path below the mount point: ['/'], ['/:id'] (one segment, whose
    integer is [req_params_id]), or anything else. *)
Inductive Path : Type := root | by_id | elsewhere.

(** [router.get('/', getAssets)] and the three others. *)
Definition assetRoutes (m : Method) (p : Path) : option (Request → Prog Response) :=
  match m, p with
  | GET, root => Some getAssets
  | POST, root => Some addAsset
  | PUT, by_id => Some updateAsset
  | DELETE, by_id => Some deleteAsset
  | _, _ => None
  end.

(** [router.use(authMiddleware)] comes first, for every method and path;
    then the route, if one matches. [None] is a request that the router
    hands on to the rest of the application. *)
Definition assetRouter (headers : gmap string string) (m : Method) (p : Path)
    (req : Request) : option (Prog Response) :=
  match authMiddleware headers req with
  | inl resp => Some (Ret resp)
  | inr req' =>
      match assetRoutes m p with
      | Some handler => Some (handler req')
      | None => None
      end
  end.

End AuthMiddleware.

Definition no_token : Response :=
  res_status_json 401 (error_json "未提供认证令牌").

Definition bad_token : Response :=
  res_status_json 401 (error_json "无效或过期的令牌").

(** ** frontend/src/services/api.ts: the two interceptors *)

(** What the interceptors touch of the browser. *)
Record Browser : Type := mkBrowser {
  localStorage : gmap string string;
  location_href : string;
}.

(** The request interceptor: [config.headers] with the token added, when
    [localStorage.getItem('token')] is a non-empty string. *)
Definition request_interceptor (b : Browser) (headers : gmap string string)
  : gmap string string :=
  match localStorage b !! "token" with
  | Some token =>
      if truthy (JStr token)
      then <["Authorization" := String.append "Bearer " token]> headers
      else headers
  | None => headers
  end.

(** The response interceptor's error branch. [response_status] is
    [error.response?.status]: [None] when the error carries no response. *)
Definition response_error_interceptor (response_status : option Z) (b : Browser)
  : Browser :=
  if bool_decide (response_status = Some 401)
  then mkBrowser (delete "user" (delete "token" (localStorage b))) "/login"
  else b.

(** ** Invariants of the store *)

(** Each asset sits under its own id, below the next id to give out, and no
    two assets have the same owner and symbol. *)
Definition wf_assets (db : Db) : Prop :=
  (∀ i a, assets db !! i = Some a → asset_id a = i ∧ i < nextAssetId db)
  ∧ (∀ i j a b, assets db !! i = Some a → assets db !! j = Some b →
       asset_userId a = asset_userId b → asset_symbol a = asset_symbol b → i = j).

(** No two users have the same email, no two the same username. *)
Definition wf_users (db : Db) : Prop :=
  NoDup (user_email <$> users db) ∧ NoDup (user_username <$> users db).

Definition wf_store (db : Db) : Prop := wf_assets db ∧ wf_users db.

(** The assets a list shows to user [v]. *)
Definition listed (v : Z) (db : Db) : list Asset :=
  merge_sort newer_first (filter (owned_by v) (rows db)).

Definition fields_required : Response :=
  res_status_json 400 (error_json "邮箱、用户名和密码都是必填项").

Definition password_too_short : Response :=
  res_status_json 400 (error_json "密码长度至少为 6 位").

(** ** More sample data *)

Definition sample_verifyToken (t : string) : Exn + JwtPayload :=
  if String.eqb t "token:alice" then inr alice_token
  else if String.eqb t "token:bob" then inr bob_token
  else inl Rejected.

Definition bob_headers : gmap string string :=
  {["authorization" := "Bearer token:bob"]}.

Definition alice_browser : Browser :=
  mkBrowser (<["user" := "alice"]> {["token" := "token:alice"]}) "/dashboard".

Definition json_headers : gmap string string :=
  {["Content-Type" := "application/json"]}.

Definition register_carol : Request :=
  mkRequest None 0
    (json_object [("email", JStr "c@x.com"); ("username", JStr "carol");
                  ("password", JStr "secret1")]).

Definition login_carol : Request :=
  mkRequest None 0
    (json_object [("emailOrUsername", JStr "carol"); ("password", JStr "secret1")]).

Definition register_numeric_password : Request :=
  mkRequest None 0
    (json_object [("email", JStr "c@x.com"); ("username", JStr "carol");
                  ("password", JNum 12345)]).

Definition alice_lists : Request := mkRequest (Some alice_token) 0 ∅.

Definition bob_deletes_aapl : Request := mkRequest (Some bob_token) 1 ∅.

(** Every way a program can end is a response that satisfies [P]. *)
Fixpoint ends_in {A : Type} (P : A → Prop) (p : Prog A) : Prop :=
  match p with
  | Ret a => P a
  | Throw _ => False
  | Await q k => ∀ r, ends_in P (k r)
  end.

Definition status_in (l : list Z) (resp : Response) : Prop := status resp ∈ l.

(** Whatever the store and whatever the other requests do in between, the
    program ends with a response, whose status is in [l]. *)
Definition always_answers (p : Prog Response) (l : list Z) : Prop :=
  ∀ env db, ∃ resp, (run_with env p db).1.1 = inr resp ∧ status resp ∈ l.

(* ------------------------------------------------------------------ *)
(** * Properties *)

(** ** Helper lemmas *)

Arguments exec : simpl never.

Lemma truthy_userId (u : Z) : u ≠ 0 → negb (truthy (JNum u)) = false.
Proof. intros H. simpl. apply Z.eqb_neq in H. by rewrite H. Qed.

Lemma foreign_owner (a : Asset) (u : Z) :
  asset_userId a ≠ u → negb (strict_eq (JNum (asset_userId a)) (JNum u)) = true.
Proof.
  intros H. unfold strict_eq. rewrite bool_decide_eq_false_2; [done|]. congruence.
Qed.

Lemma same_owner (a : Asset) (u : Z) :
  asset_userId a = u → negb (strict_eq (JNum (asset_userId a)) (JNum u)) = false.
Proof. intros ->. unfold strict_eq. by rewrite bool_decide_eq_true_2. Qed.

Lemma elem_of_rows (db : Db) (a : Asset) :
  a ∈ rows db ↔ ∃ i, assets db !! i = Some a.
Proof.
  unfold rows. rewrite list_elem_of_fmap. split.
  - intros [[i b] [-> H]]. exists i. by apply elem_of_map_to_list in H.
  - intros [i H]. exists (i, a). split; [done|]. by apply elem_of_map_to_list.
Qed.

Lemma head_filter_None {A : Type} (P : A → Prop) `{!∀ x, Decision (P x)} (l : list A) :
  head (filter P l) = None ↔ ∀ x, x ∈ l → ¬ P x.
Proof.
  rewrite head_None. split.
  - intros Hnil x Hx HP.
    assert (x ∈ filter P l) as Hin by (by apply list_elem_of_filter).
    rewrite Hnil in Hin. by apply not_elem_of_nil in Hin.
  - intros Hall. destruct (filter P l) as [|x r] eqn:E; [done|].
    assert (x ∈ filter P l) as Hin by (rewrite E; left).
    apply list_elem_of_filter in Hin as [HP Hx]. by destruct (Hall x Hx).
Qed.

Lemma head_filter_Some {A : Type} (P : A → Prop) `{!∀ x, Decision (P x)} (l : list A) (x : A) :
  head (filter P l) = Some x → x ∈ l ∧ P x.
Proof.
  intros Hhd. destruct (filter P l) as [|y r] eqn:E; [done|]. simpl in Hhd.
  injection Hhd as ->. assert (x ∈ filter P l) as Hin by (rewrite E; left).
  apply list_elem_of_filter in Hin. tauto.
Qed.

Lemma head_filter_is_Some {A : Type} (P : A → Prop) `{!∀ x, Decision (P x)} (l : list A) (x : A) :
  x ∈ l → P x → is_Some (head (filter P l)).
Proof.
  intros Hx HP. destruct (head (filter P l)) eqn:E; [eauto|].
  destruct (proj1 (head_filter_None P l) E x Hx HP).
Qed.

(** ** C1 *)

(** C1. A user [u1] naming the id of an asset that belongs to another user
    gets the not-found response (404) from update and from delete, the store
    is left as it was, and the response is the one given for an id under
    which the store has no asset. A user's id is an autoincrement key, never
    0, which the handlers take for a missing identity. *)
Theorem foreign_asset_is_not_found (req : Request) (db : Db) (a : Asset) (u1 : Z) :
  userId_of req = Some u1 → u1 ≠ 0 →
  assets db !! req_params_id req = Some a → asset_userId a ≠ u1 →
  (run (updateAsset req) db).1 = (inr not_found, db)
  ∧ (run (deleteAsset req) db).1 = (inr not_found, db)
  ∧ status not_found = 404
  ∧ ∀ db0, assets db0 !! req_params_id req = None →
      (run (updateAsset req) db0).1 = (inr not_found, db0)
      ∧ (run (deleteAsset req) db0).1 = (inr not_found, db0).
Proof.
  intros Hu Hz Ha Hne. unfold run, updateAsset, deleteAsset.
  rewrite Hu, (truthy_userId _ Hz). simpl. rewrite Ha, (foreign_owner _ _ Hne).
  split; [done|]. split; [done|]. split; [done|].
  intros db0 Hnone. simpl. by rewrite Hnone.
Qed.

Lemma foreign_asset_is_not_found_witness :
  (run (updateAsset (mkRequest (Some alice_token) 1
          (json_object [("name", JStr "Mine"); ("notes", JNull)]))) sample_db).1
    = (inr not_found, sample_db)
  ∧ (run (deleteAsset (mkRequest (Some alice_token) 1 ∅)) sample_db).1
    = (inr not_found, sample_db).
Proof.
  assert (Hnz : (1 : Z) ≠ 0) by lia.
  assert (Hne : asset_userId bob_aapl ≠ 1) by (simpl; lia).
  split.
  - exact (proj1 (foreign_asset_is_not_found
             (mkRequest (Some alice_token) 1
                (json_object [("name", JStr "Mine"); ("notes", JNull)]))
             sample_db bob_aapl 1 eq_refl Hnz eq_refl Hne)).
  - exact (proj1 (proj2 (foreign_asset_is_not_found
             (mkRequest (Some alice_token) 1 ∅)
             sample_db bob_aapl 1 eq_refl Hnz eq_refl Hne))).
Defined.

(** ** The update handler on an asset of the caller *)

Lemma run_updateAsset_owned (req : Request) (db : Db) (a : Asset) (u : Z) :
  userId_of req = Some u → u ≠ 0 →
  assets db !! req_params_id req = Some a → asset_userId a = u →
  (run (updateAsset req) db).1 =
    match exec (asset_update (req_params_id req) (update_data req a)) db with
    | (inr a', db') => (inr (res_json (asset_json "资产更新成功" a')), db')
    | (inl _, db') => (inr (res_status_json 500 (error_json "服务器错误")), db')
    end.
Proof.
  intros Hu Hz Ha Ho. unfold run, updateAsset.
  rewrite Hu, (truthy_userId _ Hz). simpl. rewrite Ha, (same_owner _ _ Ho).
  fold (update_data req a). cbn.
  destruct (exec (asset_update _ _) db) as [[e|a'] db1]; reflexivity.
Qed.

(** A 200 from [updateAsset] comes from one place: the asset was found,
    it is the caller's, and the store accepted the update. *)
Lemma updateAsset_200_inv (req : Request) (db db' : Db) (resp : Response) :
  (run (updateAsset req) db).1 = (inr resp, db') → status resp = 200 →
  ∃ u a a',
    userId_of req = Some u ∧ u ≠ 0
    ∧ assets db !! req_params_id req = Some a ∧ asset_userId a = u
    ∧ exec (asset_update (req_params_id req) (update_data req a)) db = (inr a', db')
    ∧ resp = res_json (asset_json "资产更新成功" a').
Proof.
  intros Hrun Hst.
  destruct (userId_of req) as [u|] eqn:Hu.
  2:{ unfold run, updateAsset in Hrun. rewrite Hu in Hrun. simpl in Hrun.
      injection Hrun as <- <-. discriminate. }
  destruct (decide (u = 0)) as [->|Hz].
  { unfold run, updateAsset in Hrun. rewrite Hu in Hrun. simpl in Hrun.
    injection Hrun as <- <-. discriminate. }
  destruct (assets db !! req_params_id req) as [a|] eqn:Ha.
  2:{ unfold run, updateAsset in Hrun.
      rewrite Hu, (truthy_userId _ Hz) in Hrun. simpl in Hrun.
      rewrite Ha in Hrun. simpl in Hrun. injection Hrun as <- <-. discriminate. }
  destruct (decide (asset_userId a = u)) as [Ho|Ho].
  2:{ unfold run, updateAsset in Hrun.
      rewrite Hu, (truthy_userId _ Hz) in Hrun. simpl in Hrun.
      rewrite Ha, (foreign_owner _ _ Ho) in Hrun. simpl in Hrun.
      injection Hrun as <- <-. discriminate. }
  rewrite (run_updateAsset_owned req db a u Hu Hz Ha Ho) in Hrun.
  destruct (exec _ db) as [[e|a'] db1] eqn:He.
  { injection Hrun as <- <-. discriminate. }
  injection Hrun as <- <-. exists u, a, a'. done.
Qed.

(** What the store does on an update it accepts. *)
Lemma exec_asset_update_inv (i : Z) (d : AssetUpdateInput) (db db' : Db) (a' : Asset) :
  exec (asset_update i d) db = (inr a', db') →
  ∃ a n t o,
    assets db !! i = Some a
    ∧ string_patch (aui_name d) = Some n
    ∧ string_patch (aui_type d) = Some t
    ∧ nullable_string_patch (aui_notes d) = Some o
    ∧ a' = mkAsset (asset_id a) (asset_userId a) (asset_symbol a)
                   (patch n (asset_name a)) (patch t (asset_type a))
                   (patch o (asset_notes a)) (asset_createdAt a)
    ∧ db' = set_assets db (<[i := a']> (assets db)).
Proof.
  unfold exec. intros H.
  destruct (string_patch (aui_name d)) as [n|]; [|done].
  destruct (string_patch (aui_type d)) as [t|]; [|done].
  destruct (nullable_string_patch (aui_notes d)) as [o|]; [|done].
  destruct (assets db !! i) as [a|]; [|done].
  injection H as <- <-. exists a, n, t, o. done.
Qed.

(** ** C4 *)

(** C4. An update of an asset of the caller. A name or a type that is given
    (a non-empty string) replaces the stored one; one that is left out
    (or is falsy, which the handler takes for left out) keeps the stored
    value. Notes follow another test: any notes given, the empty string
    and [null] included, replace the stored notes, and only notes left out
    keep them. The fields are typed as the API gives them: a name or type
    that is given is a string, notes that are given are a string or
    [null]. *)
Theorem updateAsset_partial_update (req : Request) (db : Db) (a : Asset) (u : Z) :
  let name := field (req_body req) "name" in
  let type := field (req_body req) "type" in
  let notes := field (req_body req) "notes" in
  userId_of req = Some u → u ≠ 0 →
  assets db !! req_params_id req = Some a → asset_userId a = u →
  (truthy name = true → ∃ n, name = JStr n) →
  (truthy type = true → ∃ t, type = JStr t) →
  (notes ≠ JUndefined → notes = JNull ∨ ∃ s, notes = JStr s) →
  ∃ a',
    (run (updateAsset req) db).1
      = (inr (res_json (asset_json "资产更新成功" a')),
         set_assets db (<[req_params_id req := a']> (assets db)))
    ∧ (∀ n, name = JStr n → n ≠ "" → asset_name a' = n)
    ∧ (truthy name = false → asset_name a' = asset_name a)
    ∧ (∀ t, type = JStr t → t ≠ "" → asset_type a' = t)
    ∧ (truthy type = false → asset_type a' = asset_type a)
    ∧ (∀ s, notes = JStr s → asset_notes a' = Some s)
    ∧ (notes = JNull → asset_notes a' = None)
    ∧ (notes = JUndefined → asset_notes a' = asset_notes a).
Proof.
  intros name type notes Hu Hz Ha Ho Hname Htype Hnotes.
  rewrite (run_updateAsset_owned req db a u Hu Hz Ha Ho).
  unfold exec, update_data. fold name type notes. simpl. rewrite Ha.
  assert (∃ n, js_or name (JStr (asset_name a)) = JStr n
               ∧ (∀ m, name = JStr m → m ≠ "" → n = m)
               ∧ (truthy name = false → n = asset_name a)) as (n & -> & Hn1 & Hn2).
  { unfold js_or. destruct (truthy name) eqn:E.
    - destruct (Hname eq_refl) as [m Hm]. exists m. rewrite Hm.
      split; [done|]. split; [|done]. intros m' Hm' _. congruence.
    - exists (asset_name a). split; [done|]. split; [|done].
      intros m Hm Hne. rewrite Hm in E. simpl in E.
      apply negb_false_iff, String.eqb_eq in E. done. }
  assert (∃ t, js_or type (JStr (asset_type a)) = JStr t
               ∧ (∀ m, type = JStr m → m ≠ "" → t = m)
               ∧ (truthy type = false → t = asset_type a)) as (t & -> & Ht1 & Ht2).
  { unfold js_or. destruct (truthy type) eqn:E.
    - destruct (Htype eq_refl) as [m Hm]. exists m. rewrite Hm.
      split; [done|]. split; [|done]. intros m' Hm' _. congruence.
    - exists (asset_type a). split; [done|]. split; [|done].
      intros m Hm Hne. rewrite Hm in E. simpl in E.
      apply negb_false_iff, String.eqb_eq in E. done. }
  unfold strict_eq. destruct (decide (notes = JUndefined)) as [Hn|Hn].
  - rewrite bool_decide_eq_true_2 by done. simpl.
    destruct (asset_notes a) as [s|] eqn:Es; simpl;
      (eexists; split; [reflexivity|]; simpl;
       repeat split; auto; intros; congruence).
  - rewrite bool_decide_eq_false_2 by done. simpl.
    destruct (Hnotes Hn) as [E|[s E]]; rewrite E; simpl;
      (eexists; split; [reflexivity|]; simpl;
       repeat split; auto; intros; congruence).
Qed.

(** ** C5 *)

(** C5. A successful update (status 200) leaves the asset's id, owner,
    symbol and creation time as they were, returns the asset as stored, and
    touches no other asset, no user and no counter of the store: only the
    name, the type and the notes of that one asset can differ. *)
Theorem updateAsset_frame (req : Request) (db db' : Db) (resp : Response) :
  (run (updateAsset req) db).1 = (inr resp, db') → status resp = 200 →
  ∃ a a',
    assets db !! req_params_id req = Some a
    ∧ assets db' !! req_params_id req = Some a'
    ∧ resp = res_json (asset_json "资产更新成功" a')
    ∧ asset_symbol a' = asset_symbol a
    ∧ asset_userId a' = asset_userId a
    ∧ asset_id a' = asset_id a
    ∧ asset_createdAt a' = asset_createdAt a
    ∧ (∀ j, j ≠ req_params_id req → assets db' !! j = assets db !! j)
    ∧ users db' = users db
    ∧ nextAssetId db' = nextAssetId db
    ∧ nextUserId db' = nextUserId db
    ∧ now db' = now db.
Proof.
  intros Hrun Hst.
  destruct (updateAsset_200_inv req db db' resp Hrun Hst)
    as (u & a & a' & Hu & Hz & Ha & Ho & He & ->).
  destruct (exec_asset_update_inv _ _ _ _ _ He)
    as (a0 & n & t & o & Ha0 & _ & _ & _ & Ea' & ->).
  rewrite Ha in Ha0. injection Ha0 as <-.
  exists a, a'. split; [done|]. split; [apply lookup_insert_eq|].
  split; [done|]. rewrite Ea'. simpl. repeat (split; [done|]).
  split; [|done]. intros j Hj. by apply lookup_insert_ne.
Qed.

(** ** C10 *)

(** C10. With no verified user id on the request, or with the id 0, each of
    the four asset handlers is the 401 response and nothing else: the
    program has no query in it, so whatever the store and whatever other
    requests do, the response is 401, the store is as it was and no query
    was executed. *)
Theorem asset_handlers_need_identity (req : Request) :
  no_identity req →
  ∀ h, h ∈ [getAssets; addAsset; updateAsset; deleteAsset] →
    h req = Ret unauthorized
    ∧ status unauthorized = 401
    ∧ ∀ env db, run_with env (h req) db = (inr unauthorized, db, []).
Proof.
  intros Hid h Hh.
  assert (h req = Ret unauthorized) as E.
  { repeat (apply elem_of_cons in Hh as [->|Hh]);
      [| | | |by apply not_elem_of_nil in Hh];
      unfold getAssets, addAsset, updateAsset, deleteAsset;
      destruct Hid as [->| ->]; reflexivity. }
  rewrite E. done.
Qed.

Lemma asset_handlers_need_identity_witness :
  updateAsset (mkRequest (Some (mkJwtPayload 0 "z@x.com" "zero")) 1
                 (json_object [("notes", JStr "mine")]))
    = Ret unauthorized
  ∧ run_with [] (deleteAsset (mkRequest (Some (mkJwtPayload 0 "z@x.com" "zero")) 1 ∅))
             sample_db
    = (inr unauthorized, sample_db, []).
Proof.
  split.
  - refine (proj1 (asset_handlers_need_identity
                     (mkRequest (Some (mkJwtPayload 0 "z@x.com" "zero")) 1
                        (json_object [("notes", JStr "mine")]))
                     (or_intror eq_refl) updateAsset _)).
    do 2 right. left.
  - refine (proj2 (proj2 (asset_handlers_need_identity
                     (mkRequest (Some (mkJwtPayload 0 "z@x.com" "zero")) 1 ∅)
                     (or_intror eq_refl) deleteAsset _)) [] sample_db).
    do 3 right. left.
Defined.

(** ** C8 *)

#[global] Instance newer_first_trans : Transitive newer_first.
Proof. unfold newer_first. intros a b c. lia. Qed.

#[global] Instance newer_first_total : Total newer_first.
Proof. unfold newer_first. intros a b. lia. Qed.

(** C8. A list call with a verified user id answers 200 with the assets of
    that user: a record is in the answer exactly when the store has it under
    some id with that owner, the answer is the owner's records and no more
    (a permutation of them), and it is ordered by [createdAt], newest
    first. A user with no asset gets 200 with the empty list. One query is
    made and the store is as it was. *)
Theorem getAssets_lists_owned_newest_first (req : Request) (db : Db) (u : Z) :
  userId_of req = Some u → u ≠ 0 →
  ∃ l,
    run (getAssets req) db
      = (inr (mkResponse 200 (assets_json l)), db, [existT _ (asset_findMany u)])
    ∧ (∀ a, a ∈ l ↔ ∃ i, assets db !! i = Some a ∧ asset_userId a = u)
    ∧ l ≡ₚ filter (owned_by u) (rows db)
    ∧ StronglySorted (λ a b, asset_createdAt b ≤ asset_createdAt a) l
    ∧ ((∀ i a, assets db !! i = Some a → asset_userId a ≠ u) → l = []).
Proof.
  intros Hu Hz.
  exists (merge_sort newer_first (filter (owned_by u) (rows db))).
  split.
  { unfold run, getAssets. rewrite Hu, (truthy_userId _ Hz). reflexivity. }
  assert (∀ a, a ∈ merge_sort newer_first (filter (owned_by u) (rows db))
               ↔ ∃ i, assets db !! i = Some a ∧ asset_userId a = u) as Hin.
  { intros a. rewrite merge_sort_Permutation, list_elem_of_filter, elem_of_rows.
    unfold owned_by. split.
    - intros [Ho [i Hi]]. eauto.
    - intros (i & Hi & Ho). eauto. }
  split; [exact Hin|]. split; [apply merge_sort_Permutation|].
  split; [apply (StronglySorted_merge_sort newer_first)|].
  intros Hnone.
  destruct (merge_sort newer_first (filter (owned_by u) (rows db))) as [|a l] eqn:E;
    [done|].
  destruct (proj1 (Hin a)) as (i & Hi & Ho); [left|]. by destruct (Hnone i a Hi).
Qed.

(** ** The add handler past its validation *)

Lemma exec_asset_findUnique_userId_symbol (u : Z) (s : string) (db : Db) :
  exec (asset_findUnique_userId_symbol u s) db
    = (inr (head (filter (has_key u s) (rows db))), db).
Proof. reflexivity. Qed.

Lemma run_with_addAsset (env : list (Db → Db)) (req : Request) (db : Db) (u : Z) (s : string) :
  userId_of req = Some u → u ≠ 0 →
  field (req_body req) "symbol" = JStr s →
  present req "symbol" → present req "name" → present req "type" →
  let q_check := asset_findUnique_userId_symbol u (upper_string s) in
  let q_insert := asset_create (create_data req u (upper_string s)) in
  let db1 := interfere env db in
  let db2 := interfere (tail env) db1 in
  run_with env (addAsset req) db =
    match head (filter (has_key u (upper_string s)) (rows db1)) with
    | Some _ => (inr conflict, db1, [existT _ q_check])
    | None =>
        match exec q_insert db2 with
        | (inr a, db3) =>
            (inr (res_status_json 201 (asset_json "资产添加成功" a)), db3,
             [existT _ q_check; existT _ q_insert])
        | (inl _, db3) => (inr internal_error, db3, [existT _ q_check; existT _ q_insert])
        end
    end.
Proof.
  intros Hu Hz Hs Ps Pn Pt q_check q_insert db1 db2.
  unfold present in Ps, Pn, Pt. unfold addAsset. rewrite Hu, (truthy_userId _ Hz), Ps, Pn, Pt, Hs. cbn.
  fold db1. rewrite exec_asset_findUnique_userId_symbol.
  cbn. destruct (head (filter (has_key u (upper_string s)) (rows db1))); cbn.
  - reflexivity.
  - fold db2. fold (create_data req u (upper_string s)). fold q_insert.
    destruct (exec q_insert db2) as [[e|a] db3]; reflexivity.
Qed.

Lemma exec_asset_create_inv (d : AssetCreateInput) (db db' : Db) (a : Asset) :
  exec (asset_create d) db = (inr a, db') →
  ∃ n t o,
    as_string (aci_name d) = Some n
    ∧ as_string (aci_type d) = Some t
    ∧ as_nullable_string (aci_notes d) = Some o
    ∧ filter (has_key (aci_userId d) (aci_symbol d)) (rows db) = []
    ∧ assets db !! nextAssetId db = None
    ∧ a = mkAsset (nextAssetId db) (aci_userId d) (aci_symbol d) n t o (now db)
    ∧ db' = mkDb (<[nextAssetId db := a]> (assets db)) (nextAssetId db + 1)
                 (users db) (nextUserId db) (now db).
Proof.
  unfold exec. intros H.
  destruct (as_string (aci_name d)) as [n|]; [|done].
  destruct (as_string (aci_type d)) as [t|]; [|done].
  destruct (as_nullable_string (aci_notes d)) as [o|]; [|done].
  destruct (decide _) as [Hd|Hd]; [done|].
  injection H as <- <-. exists n, t, o.
  repeat (split; [done|]).
  split.
  - destruct (filter _ (rows db)) eqn:E; [done|]. destruct Hd. by left.
  - split; [|done]. destruct (assets db !! nextAssetId db) eqn:E; [|done].
    destruct Hd. right. eauto.
Qed.

Lemma exec_asset_create_fresh (d : AssetCreateInput) (db : Db) (n t : string) (o : option string) :
  as_string (aci_name d) = Some n →
  as_string (aci_type d) = Some t →
  as_nullable_string (aci_notes d) = Some o →
  filter (has_key (aci_userId d) (aci_symbol d)) (rows db) = [] →
  assets db !! nextAssetId db = None →
  let a := mkAsset (nextAssetId db) (aci_userId d) (aci_symbol d) n t o (now db) in
  exec (asset_create d) db
    = (inr a, mkDb (<[nextAssetId db := a]> (assets db)) (nextAssetId db + 1)
                   (users db) (nextUserId db) (now db)).
Proof.
  intros Hn Ht Ho Hf Hi a. unfold exec. rewrite Hn, Ht, Ho.
  destruct (decide _) as [[Hd|Hd]|Hd]; [done| |done].
  rewrite Hi in Hd. by destruct Hd.
Qed.

(** A 201 from [addAsset] comes from one place: the three fields are
    there, the symbol is a string, no asset of the caller has its uppercase
    form, and the store accepted the insert. *)
Lemma addAsset_201_inv (req : Request) (db db' : Db) (resp : Response) :
  (run (addAsset req) db).1 = (inr resp, db') → status resp = 201 →
  ∃ u s a,
    userId_of req = Some u ∧ u ≠ 0
    ∧ field (req_body req) "symbol" = JStr s
    ∧ exec (asset_create (create_data req u (upper_string s))) db = (inr a, db')
    ∧ resp = res_status_json 201 (asset_json "资产添加成功" a).
Proof.
  intros Hrun Hst.
  destruct (userId_of req) as [u|] eqn:Hu.
  2:{ unfold run, addAsset in Hrun. rewrite Hu in Hrun. simpl in Hrun.
      injection Hrun as <- <-. discriminate. }
  destruct (decide (u = 0)) as [->|Hz].
  { unfold run, addAsset in Hrun. rewrite Hu in Hrun. simpl in Hrun.
    injection Hrun as <- <-. discriminate. }
  destruct (truthy (field (req_body req) "symbol")) eqn:Ps.
  2:{ unfold run, addAsset in Hrun.
      rewrite Hu, (truthy_userId _ Hz), Ps in Hrun. simpl in Hrun.
      injection Hrun as <- <-. discriminate. }
  destruct (truthy (field (req_body req) "name")) eqn:Pn.
  2:{ unfold run, addAsset in Hrun.
      rewrite Hu, (truthy_userId _ Hz), Ps, Pn in Hrun. simpl in Hrun.
      injection Hrun as <- <-. discriminate. }
  destruct (truthy (field (req_body req) "type")) eqn:Pt.
  2:{ unfold run, addAsset in Hrun.
      rewrite Hu, (truthy_userId _ Hz), Ps, Pn, Pt in Hrun. simpl in Hrun.
      injection Hrun as <- <-. discriminate. }
  destruct (field (req_body req) "symbol") as [| |b|m|s] eqn:Hs;
    try (unfold run, addAsset in Hrun;
         rewrite Hu, (truthy_userId _ Hz), Pn, Pt, Hs, Ps in Hrun; simpl in Hrun;
         injection Hrun as <- <-; discriminate).
  unfold run in Hrun.
  rewrite (run_with_addAsset [] req db u s Hu Hz Hs) in Hrun;
    [| unfold present; by rewrite Hs | done | done].
  simpl in Hrun.
  destruct (head (filter (has_key u (upper_string s)) (rows db))).
  { injection Hrun as <- <-. discriminate. }
  destruct (exec _ db) as [[e|a] db3] eqn:He.
  { injection Hrun as <- <-. discriminate. }
  injection Hrun as <- <-. exists u, s, a. done.
Qed.

(** ** C3 *)

Lemma key_taken (db : Db) (u : Z) (s : string) :
  (∃ i a, assets db !! i = Some a ∧ asset_userId a = u ∧ asset_symbol a = s) →
  is_Some (head (filter (has_key u s) (rows db))).
Proof.
  intros (i & a & Hi & Hu & Hs).
  apply (head_filter_is_Some (has_key u s) (rows db) a); [|done].
  apply elem_of_rows. eauto.
Qed.

Lemma key_free (db : Db) (u : Z) (s : string) :
  (∀ i a, assets db !! i = Some a → asset_userId a = u → asset_symbol a ≠ s) →
  filter (has_key u s) (rows db) = [].
Proof.
  intros H. destruct (filter (has_key u s) (rows db)) as [|a l] eqn:E; [done|].
  assert (a ∈ filter (has_key u s) (rows db)) as Hin by (rewrite E; left).
  apply list_elem_of_filter in Hin as [[Hu Hs] Hin].
  apply elem_of_rows in Hin as [i Hi]. by destruct (H i a Hi Hu).
Qed.

(** C3. An add call with a symbol, a name and a type (non-empty strings)
    from a verified user. The uniqueness check is made on the uppercased
    symbol, and so is the insert. When the caller already has an asset whose
    symbol is that uppercase form, the answer is the conflict (400) and the
    store is as it was. Otherwise (the notes, if any, being a string) the
    answer is 201 with the asset as stored, whose symbol is the uppercase
    form; after that, any add by the same user of a symbol with the same
    uppercase form is the conflict and changes nothing. *)
Theorem addAsset_uppercases_symbol (req : Request) (db : Db) (u : Z) (s n t : string) :
  userId_of req = Some u → u ≠ 0 →
  field (req_body req) "symbol" = JStr s → s ≠ "" →
  field (req_body req) "name" = JStr n → n ≠ "" →
  field (req_body req) "type" = JStr t → t ≠ "" →
  let q_check := asset_findUnique_userId_symbol u (upper_string s) in
  let q_insert := asset_create (create_data req u (upper_string s)) in
  ((∃ i a, assets db !! i = Some a ∧ asset_userId a = u
           ∧ asset_symbol a = upper_string s) →
   run (addAsset req) db = (inr conflict, db, [existT _ q_check])
   ∧ status conflict = 400)
  ∧
  ((∀ i a, assets db !! i = Some a → asset_userId a = u →
           asset_symbol a ≠ upper_string s) →
   assets db !! nextAssetId db = None →
   (truthy (field (req_body req) "notes") = true →
    ∃ v, field (req_body req) "notes" = JStr v) →
   ∃ a db',
     run (addAsset req) db
       = (inr (mkResponse 201 (asset_json "资产添加成功" a)), db',
          [existT _ q_check; existT _ q_insert])
     ∧ aci_symbol (create_data req u (upper_string s)) = upper_string s
     ∧ asset_symbol a = upper_string s
     ∧ asset_userId a = u ∧ asset_name a = n ∧ asset_type a = t
     ∧ assets db' !! asset_id a = Some a
     ∧ (∀ j, j ≠ asset_id a → assets db' !! j = assets db !! j)
     ∧ ∀ req2 s2,
         userId_of req2 = Some u →
         field (req_body req2) "symbol" = JStr s2 →
         upper_string s2 = upper_string s →
         present req2 "symbol" → present req2 "name" → present req2 "type" →
         (run (addAsset req2) db').1 = (inr conflict, db')).
Proof.
  intros Hu Hz Hs Hs0 Hn Hn0 Ht Ht0 q_check q_insert.
  assert (present req "symbol") as Ps.
  { unfold present. rewrite Hs. simpl. apply negb_true_iff, String.eqb_neq. done. }
  assert (present req "name") as Pn.
  { unfold present. rewrite Hn. simpl. apply negb_true_iff, String.eqb_neq. done. }
  assert (present req "type") as Pt.
  { unfold present. rewrite Ht. simpl. apply negb_true_iff, String.eqb_neq. done. }
  pose proof (run_with_addAsset [] req db u s Hu Hz Hs Ps Pn Pt) as Hrun.
  simpl in Hrun. fold (run (addAsset req) db) in Hrun. split.
  - intros Hex. split; [|done]. rewrite Hrun.
    destruct (key_taken db u (upper_string s) Hex) as [a ->]. done.
  - intros Hfree Hid Hnotes.
    pose proof (key_free db u (upper_string s) Hfree) as Hf.
    assert (∃ o, as_nullable_string (js_or (field (req_body req) "notes") JNull)
                 = Some o) as [o Ho].
    { unfold js_or. destruct (truthy (field (req_body req) "notes")) eqn:E.
      - destruct (Hnotes eq_refl) as [v ->]. by eexists.
      - by eexists. }
    pose proof (exec_asset_create_fresh (create_data req u (upper_string s)) db
                  n t o) as Hc.
    simpl in Hc. rewrite Hn, Ht in Hc. specialize (Hc eq_refl eq_refl Ho Hf Hid).
    rewrite Hrun, Hf. simpl. rewrite Hc.
    eexists _, _. split; [reflexivity|]. simpl.
    repeat (split; [done|]).
    split; [apply lookup_insert_eq|].
    split; [intros j Hj; by apply lookup_insert_ne|].
    intros req2 s2 Hu2 Hs2 Hup P1 P2 P3. unfold run.
    rewrite (run_with_addAsset [] req2 _ u s2 Hu2 Hz Hs2 P1 P2 P3). simpl.
    rewrite Hup.
    match goal with |- context [head (filter ?P (rows ?d))] =>
      destruct (key_taken d u (upper_string s)) as [a' ->]; [|done] end.
    eexists (nextAssetId db), _. simpl. rewrite lookup_insert_eq. done.
Qed.

(** ** C9 *)

Lemma notes_column (v : JsValue) (o : option string) :
  as_nullable_string (js_or v JNull) = Some o →
  o ≠ Some "" ∧ (truthy v = false → o = None).
Proof.
  unfold js_or. destruct (truthy v) eqn:E.
  - destruct v as [| |b|m|s]; simpl in *; try done.
    intros [= <-]. split; [|done]. intros [= ->]. done.
  - simpl. intros [= <-]. done.
Qed.

(** C9. An add call whose notes are falsy (the empty string, [null],
    [false], 0) runs exactly as the call with no notes at all: same
    response, same store, same queries; when it creates an asset, the notes
    stored and returned are null. Whatever the notes, an asset created by
    add never has the empty string as its notes. *)
Theorem addAsset_falsy_notes_is_null (req : Request) (db : Db) :
  (truthy (field (req_body req) "notes") = false →
   run (addAsset req) db = run (addAsset (without_notes req)) db)
  ∧ ∀ resp db',
      (run (addAsset req) db).1 = (inr resp, db') → status resp = 201 →
      ∃ a,
        resp = mkResponse 201 (asset_json "资产添加成功" a)
        ∧ assets db' !! asset_id a = Some a
        ∧ asset_notes a ≠ Some ""
        ∧ (truthy (field (req_body req) "notes") = false → asset_notes a = None).
Proof.
  split.
  - intros Hfalsy. f_equal. unfold addAsset, without_notes, userId_of. simpl.
    unfold field. rewrite lookup_delete_eq, !lookup_delete_ne by done.
    fold (field (req_body req) "symbol") (field (req_body req) "name")
         (field (req_body req) "type") (field (req_body req) "notes").
    unfold js_or at 1. rewrite Hfalsy. reflexivity.
  - intros resp db' Hrun Hst.
    destruct (addAsset_201_inv req db db' resp Hrun Hst)
      as (u & s & a & Hu & Hz & Hs & He & ->).
    destruct (exec_asset_create_inv _ _ _ _ He)
      as (n & t & o & _ & _ & Ho & _ & _ & Ea & ->).
    exists a. split; [done|]. rewrite Ea. simpl.
    split; [apply lookup_insert_eq|]. by apply notes_column.
Qed.

(** ** C2 *)

(** C2 as amended. An add call whose check finds no asset of the caller
    under the uppercased symbol, and whose insert the store then rejects for
    the unique key (another request has inserted in between), ends in the
    handler's [catch]: the answer is the server error (500), not the
    conflict (400), and the insert leaves the store as it found it. *)
Theorem addAsset_rejected_insert_is_server_error
    (before_check before_insert : Db → Db) (req : Request) (db : Db) (u : Z) (s : string) :
  userId_of req = Some u → u ≠ 0 →
  field (req_body req) "symbol" = JStr s →
  present req "symbol" → present req "name" → present req "type" →
  let db1 := before_check db in
  let db2 := before_insert db1 in
  (exec (asset_findUnique_userId_symbol u (upper_string s)) db1).1 = inr None →
  (exec (asset_create (create_data req u (upper_string s))) db2).1 = inl P2002 →
  (run_with [before_check; before_insert] (addAsset req) db).1
    = (inr internal_error, db2)
  ∧ status internal_error = 500
  ∧ internal_error ≠ conflict.
Proof.
  intros Hu Hz Hs Ps Pn Pt db1 db2 Hcheck Hins.
  rewrite (run_with_addAsset _ req db u s Hu Hz Hs Ps Pn Pt). simpl.
  fold db1 db2. rewrite exec_asset_findUnique_userId_symbol in Hcheck.
  simpl in Hcheck. injection Hcheck as ->.
  destruct (exec _ db2) as [[e|a] db3] eqn:He; simpl in Hins; [|done].
  assert (db3 = db2) as ->.
  { unfold exec in He.
    repeat (match type of He with
            | context [match ?x with _ => _ end] => destruct x
            | context [if ?x then _ else _] => destruct x
            end; try done); by injection He. }
  done.
Qed.

(** ** C6 and C7: authController.ts *)

Lemma exec_user_findFirst (e n : string) (db : Db) :
  exec (user_findFirst (JStr e) (JStr n)) db
    = (inr (head (filter (user_matches e n) (users db))), db).
Proof. reflexivity. Qed.

Lemma nonempty_truthy (s : string) : s ≠ "" → truthy (JStr s) = true.
Proof. intros H. simpl. by apply negb_true_iff, String.eqb_neq. Qed.

Section AuthProperties.

Variable hashPassword : JsValue → Exn + string.
Variable comparePassword : JsValue → string → Exn + bool.
Variable generateToken : JwtPayload → string.

Lemma run_login_found (req : Request) (db : Db) (i : string) (user : User) :
  field (req_body req) "emailOrUsername" = JStr i → i ≠ "" →
  present req "password" →
  head (filter (user_matches i i) (users db)) = Some user →
  (run (login comparePassword generateToken req) db).1 =
    (match comparePassword (field (req_body req) "password") (user_password user) with
     | inl _ => inr internal_error
     | inr false => inr invalid_credentials
     | inr true =>
         inr (res_json
                (auth_json "登录成功"
                   (mkPublicUser (user_id user) (user_email user)
                                 (user_username user) None)
                   (generateToken
                      (mkJwtPayload (user_id user) (user_email user)
                                    (user_username user)))))
     end, db).
Proof.
  intros Hi Hi0 Pp Hfound. unfold present in Pp. unfold run, login.
  rewrite Hi, (nonempty_truthy _ Hi0), Pp. cbn.
  rewrite exec_user_findFirst, Hfound. cbn.
  destruct (comparePassword _ _) as [e|[|]]; reflexivity.
Qed.

Lemma run_login_unknown (req : Request) (db : Db) (i : string) :
  field (req_body req) "emailOrUsername" = JStr i → i ≠ "" →
  present req "password" →
  head (filter (user_matches i i) (users db)) = None →
  (run (login comparePassword generateToken req) db).1 = (inr invalid_credentials, db).
Proof.
  intros Hi Hi0 Pp Hnone. unfold present in Pp. unfold run, login.
  rewrite Hi, (nonempty_truthy _ Hi0), Pp. cbn.
  rewrite exec_user_findFirst, Hnone. reflexivity.
Qed.

(** C6. Two login calls with both fields there: one whose identifier is
    the email or username of no user, one whose identifier finds a user
    whose stored hash the password does not verify against. Both get the
    same response, status 401 with the one generic error body, and
    neither changes the store. *)
Theorem login_failures_indistinguishable
    (req1 req2 : Request) (db1 db2 : Db) (i1 i2 : string) (user : User) :
  field (req_body req1) "emailOrUsername" = JStr i1 → i1 ≠ "" →
  present req1 "password" →
  field (req_body req2) "emailOrUsername" = JStr i2 → i2 ≠ "" →
  present req2 "password" →
  (∀ x, x ∈ users db1 → user_email x ≠ i1 ∧ user_username x ≠ i1) →
  head (filter (user_matches i2 i2) (users db2)) = Some user →
  comparePassword (field (req_body req2) "password") (user_password user)
    = inr false →
  (run (login comparePassword generateToken req1) db1).1.1
    = (run (login comparePassword generateToken req2) db2).1.1
  ∧ (run (login comparePassword generateToken req1) db1).1
      = (inr invalid_credentials, db1)
  ∧ (run (login comparePassword generateToken req2) db2).1
      = (inr invalid_credentials, db2)
  ∧ invalid_credentials = mkResponse 401 (error_json "用户名/邮箱或密码错误").
Proof.
  intros H1 H10 P1 H2 H20 P2 Hnone Hfound Hbad.
  assert (head (filter (user_matches i1 i1) (users db1)) = None) as Hn.
  { apply head_filter_None. intros x Hx [E|E]; by destruct (Hnone x Hx). }
  rewrite (run_login_unknown req1 db1 i1 H1 H10 P1 Hn).
  rewrite (run_login_found req2 db2 i2 user H2 H20 P2 Hfound), Hbad.
  done.
Qed.

Lemma run_register_past_validation (req : Request) (db : Db) (e n p : string) :
  field (req_body req) "email" = JStr e → e ≠ "" →
  field (req_body req) "username" = JStr n → n ≠ "" →
  field (req_body req) "password" = JStr p → (6 ≤ String.length p)%nat →
  ∀ m, head (filter (user_matches e n) (users db)) = Some m →
    (run (register hashPassword generateToken req) db).1 =
      (inr (if decide (user_email m = e) then email_taken else username_taken), db).
Proof.
  intros He He0 Hn Hn0 Hp Hlen m Hm. unfold run, register.
  rewrite He, Hn, Hp, (nonempty_truthy _ He0), (nonempty_truthy _ Hn0).
  assert (p ≠ "") as Hp0 by (intros ->; simpl in Hlen; lia).
  rewrite (nonempty_truthy _ Hp0). cbn.
  assert ((Z.of_nat (String.length p) <? 6) = false) as -> by (apply Z.ltb_ge; lia).
  cbn. rewrite exec_user_findFirst, Hm. cbn. unfold strict_eq.
  destruct (head_filter_Some _ _ _ Hm) as [_ Hmatch].
  destruct (decide (user_email m = e)) as [E|E].
  - rewrite bool_decide_eq_true_2 by congruence. reflexivity.
  - rewrite bool_decide_eq_false_2 by congruence.
    destruct Hmatch as [E'|E']; [done|].
    rewrite bool_decide_eq_true_2 by congruence. reflexivity.
Qed.

(** C7 as amended. A register call with the three fields there and a
    password of six characters or more, when some user has the email or
    the username: the answer is a conflict (400) and the store is as it
    was, so no user is created. The lookup gives one user [m], the first
    the store finds with that email or that username, and the two tests are
    made on [m], the email first: the email message when [m] has the email,
    the username message otherwise. So an email that is taken gives the
    email message when no user has the username, and more generally when
    [m] is a user with that email; a username that is taken, with an email
    no user has, gives the username message. *)
Theorem register_conflict (req : Request) (db : Db) (e n p : string) :
  field (req_body req) "email" = JStr e → e ≠ "" →
  field (req_body req) "username" = JStr n → n ≠ "" →
  field (req_body req) "password" = JStr p → (6 ≤ String.length p)%nat →
  (∃ x, x ∈ users db ∧ (user_email x = e ∨ user_username x = n)) →
  ∃ m resp,
    head (filter (user_matches e n) (users db)) = Some m
    ∧ (run (register hashPassword generateToken req) db).1 = (inr resp, db)
    ∧ status resp = 400
    ∧ (user_email m = e → resp = email_taken)
    ∧ (user_email m ≠ e → resp = username_taken)
    ∧ ((∀ x, x ∈ users db → user_username x ≠ n) → resp = email_taken)
    ∧ ((∀ x, x ∈ users db → user_email x ≠ e) → resp = username_taken).
Proof.
  intros He He0 Hn Hn0 Hp Hlen (x & Hx & Hmatch).
  destruct (head_filter_is_Some (user_matches e n) (users db) x Hx Hmatch)
    as [m Hm].
  exists m, (if decide (user_email m = e) then email_taken else username_taken).
  split; [done|].
  split; [by apply (run_register_past_validation req db e n p)|].
  destruct (head_filter_Some _ _ _ Hm) as [Hin Hmm].
  destruct (decide (user_email m = e)) as [E|E].
  - split; [done|]. split; [done|]. split; [done|]. split; [done|].
    intros Hfresh. by destruct (Hfresh m Hin).
  - split; [done|]. split; [done|]. split; [done|]. split; [|done].
    intros Hfresh. destruct Hmm as [E'|E']; [done|]. by destruct (Hfresh m Hin).
Qed.

End AuthProperties.

(** ** Instances of the properties on the sample data *)

Lemma updateAsset_partial_update_witness :
  ∃ a',
    (run (updateAsset bob_clears_notes) sample_db).1
      = (inr (res_json (asset_json "资产更新成功" a')),
         set_assets sample_db (<[1 := a']> (assets sample_db)))
    ∧ asset_name a' = "Apple" ∧ asset_type a' = "stock"
    ∧ asset_notes a' = Some "".
Proof.
  assert (Hz : (2 : Z) ≠ 0) by lia.
  destruct (updateAsset_partial_update bob_clears_notes sample_db bob_aapl 2
              eq_refl Hz eq_refl eq_refl)
    as (a' & Hrun & _ & Hname & _ & Htype & Hnotes & _).
  - intros H. vm_compute in H. discriminate.
  - intros H. vm_compute in H. discriminate.
  - intros _. right. exists "". reflexivity.
  - exists a'. split; [exact Hrun|].
    split; [exact (Hname eq_refl)|]. split; [exact (Htype eq_refl)|].
    exact (Hnotes "" eq_refl).
Defined.

Lemma updateAsset_frame_witness :
  ∃ a a',
    assets sample_db !! 1 = Some a
    ∧ assets sample_db_cleared !! 1 = Some a'
    ∧ asset_symbol a' = asset_symbol a
    ∧ asset_userId a' = asset_userId a
    ∧ asset_id a' = asset_id a.
Proof.
  destruct (updateAsset_frame bob_clears_notes sample_db sample_db_cleared
              (res_json (asset_json "资产更新成功" bob_aapl_cleared)))
    as (a & a' & Ha & Ha' & _ & Hs & Hu & Hi & _).
  - vm_compute. reflexivity.
  - reflexivity.
  - exists a, a'. repeat split; assumption.
Defined.

Lemma getAssets_lists_owned_newest_first_witness :
  ∃ l,
    run (getAssets (mkRequest (Some bob_token) 0 ∅)) sample_db
      = (inr (mkResponse 200 (assets_json l)), sample_db,
         [existT _ (asset_findMany 2)])
    ∧ (∀ a, a ∈ l ↔ ∃ i, assets sample_db !! i = Some a ∧ asset_userId a = 2)
    ∧ l ≡ₚ filter (owned_by 2) (rows sample_db)
    ∧ StronglySorted (λ a b, asset_createdAt b ≤ asset_createdAt a) l
    ∧ ((∀ i a, assets sample_db !! i = Some a → asset_userId a ≠ 2) → l = []).
Proof.
  apply (getAssets_lists_owned_newest_first (mkRequest (Some bob_token) 0 ∅)
           sample_db 2); [reflexivity | lia].
Defined.

Lemma addAsset_uppercases_symbol_witness :
  run (addAsset bob_adds_aapl) sample_db
    = (inr conflict, sample_db,
       [existT _ (asset_findUnique_userId_symbol 2 "AAPL")])
  ∧ ∃ a db',
      run (addAsset alice_adds_btc) sample_db
        = (inr (mkResponse 201 (asset_json "资产添加成功" a)), db',
           [existT _ (asset_findUnique_userId_symbol 1 "BTC");
            existT _ (asset_create (create_data alice_adds_btc 1 "BTC"))])
      ∧ asset_symbol a = "BTC"
      ∧ assets db' !! asset_id a = Some a.
Proof.
  assert (H1 : (1 : Z) ≠ 0) by lia.
  assert (H2 : (2 : Z) ≠ 0) by lia.
  assert (Hne : ∀ s : string, String.eqb s "" = false → s ≠ "")
    by (intros s; apply String.eqb_neq).
  split.
  - apply (addAsset_uppercases_symbol bob_adds_aapl sample_db 2
             "aapl" "Apple Inc" "stock" eq_refl H2
             eq_refl (Hne "aapl" eq_refl)
             eq_refl (Hne "Apple Inc" eq_refl)
             eq_refl (Hne "stock" eq_refl)).
    exists 1, bob_aapl. repeat split; reflexivity.
  - destruct (proj2 (addAsset_uppercases_symbol alice_adds_btc sample_db 1
             "btc" "Bitcoin" "crypto" eq_refl H1
             eq_refl (Hne "btc" eq_refl)
             eq_refl (Hne "Bitcoin" eq_refl)
             eq_refl (Hne "crypto" eq_refl)))
      as (a & db' & Hrun & _ & Hsym & _ & _ & _ & Hst & _).
    + intros i a Hi Hu Hs.
      assert (head (filter (has_key 1 "BTC") (rows sample_db)) = None) as Hnone
        by (vm_compute; reflexivity).
      apply (proj1 (head_filter_None (has_key 1 "BTC") (rows sample_db))
               Hnone a); [apply elem_of_rows; eauto | by split].
    + reflexivity.
    + intros H. vm_compute in H. discriminate.
    + exists a, db'. repeat split; assumption.
Defined.

Lemma addAsset_falsy_notes_is_null_witness :
  run (addAsset alice_adds_btc) sample_db
    = run (addAsset (without_notes alice_adds_btc)) sample_db
  ∧ ∃ a,
      res_status_json 201 (asset_json "资产添加成功" alice_btc)
        = mkResponse 201 (asset_json "资产添加成功" a)
      ∧ asset_notes a = None.
Proof.
  destruct (addAsset_falsy_notes_is_null alice_adds_btc sample_db) as [Heq Hok].
  split; [exact (Heq eq_refl)|].
  destruct (Hok (res_status_json 201 (asset_json "资产添加成功" alice_btc))
              (served (addAsset alice_adds_btc) sample_db))
    as (a & Hr & _ & _ & Hnull).
  - vm_compute. reflexivity.
  - reflexivity.
  - exists a. split; [exact Hr | exact (Hnull eq_refl)].
Defined.

(** C2 as stated fails: [bob] sends the same add twice over an empty
    store, and the second is served between the check and the insert of the
    first. The check of the first finds nothing, its insert is rejected for
    the unique key, and its answer is the server error (500), which is not
    the conflict (400) that the check gives. *)
Lemma addAsset_rejected_insert_is_not_conflict :
  (exec (asset_findUnique_userId_symbol 2 "BTC") empty_db).1 = inr None
  ∧ (exec (asset_create (create_data bob_adds_btc 2 "BTC"))
          (served (addAsset bob_adds_btc) empty_db)).1 = inl P2002
  ∧ (run_with [λ db, db; served (addAsset bob_adds_btc)]
              (addAsset bob_adds_btc) empty_db).1.1
      = inr (mkResponse 500 (error_json "服务器错误"))
  ∧ (run_with [λ db, db; served (addAsset bob_adds_btc)]
              (addAsset bob_adds_btc) empty_db).1.1
      ≠ inr conflict.
Proof.
  split; [vm_compute; reflexivity|].
  split; [vm_compute; reflexivity|].
  split; [vm_compute; reflexivity|].
  intros H. vm_compute in H. discriminate.
Qed.

Lemma addAsset_rejected_insert_is_server_error_witness :
  (run_with [λ db, db; served (addAsset bob_adds_btc)]
            (addAsset bob_adds_btc) empty_db).1
    = (inr internal_error, served (addAsset bob_adds_btc) empty_db)
  ∧ status internal_error = 500
  ∧ internal_error ≠ conflict.
Proof.
  assert (Hz : (2 : Z) ≠ 0) by lia.
  apply (addAsset_rejected_insert_is_server_error
           (λ db, db) (served (addAsset bob_adds_btc))
           bob_adds_btc empty_db 2 "btc" eq_refl Hz eq_refl
           eq_refl eq_refl eq_refl).
  - vm_compute. reflexivity.
  - vm_compute. reflexivity.
Defined.

Lemma login_failures_indistinguishable_witness :
  (run (login sample_comparePassword sample_generateToken login_ghost) sample_db).1.1
    = (run (login sample_comparePassword sample_generateToken login_alice_wrong)
           sample_db).1.1.
Proof.
  assert (Hg : "ghost" ≠ "") by discriminate.
  assert (Ha : "alice" ≠ "") by discriminate.
  refine (proj1 (login_failures_indistinguishable
            sample_comparePassword sample_generateToken
            login_ghost login_alice_wrong sample_db sample_db
            "ghost" "alice" alice eq_refl Hg eq_refl eq_refl Ha eq_refl _ _ _)).
  - intros x Hx.
    assert (head (filter (user_matches "ghost" "ghost") (users sample_db)) = None)
      as Hnone by (vm_compute; reflexivity).
    pose proof (proj1 (head_filter_None _ _) Hnone x Hx) as Hno.
    unfold user_matches in Hno. tauto.
  - vm_compute. reflexivity.
  - vm_compute. reflexivity.
Defined.

(** C7 as stated fails: the email of the call is the email of [bob], so
    it is taken, and its username is the username of [alice], whom the
    store finds first; the answer is the username message, not the email
    message. *)
Lemma register_taken_email_gets_username_message :
  (∃ x, x ∈ users sample_db ∧ user_email x = "b@x.com")
  ∧ (run (register sample_hashPassword sample_generateToken register_crossed)
         sample_db).1.1
      = inr (mkResponse 400 (error_json "该用户名已被使用"))
  ∧ (run (register sample_hashPassword sample_generateToken register_crossed)
         sample_db).1.1
      ≠ inr email_taken.
Proof.
  split.
  { exists bob. split; [|reflexivity]. right. left. }
  split; [vm_compute; reflexivity|].
  intros H. vm_compute in H. discriminate.
Qed.

Lemma register_conflict_witness :
  ∃ m resp,
    head (filter (user_matches "a@x.com" "carol") (users sample_db)) = Some m
    ∧ (run (register sample_hashPassword sample_generateToken register_taken_email)
           sample_db).1 = (inr resp, sample_db)
    ∧ status resp = 400
    ∧ resp = email_taken.
Proof.
  assert (He : "a@x.com" ≠ "") by discriminate.
  assert (Hn : "carol" ≠ "") by discriminate.
  assert (Hl : (6 ≤ String.length "secret1")%nat) by (simpl; lia).
  destruct (register_conflict sample_hashPassword sample_generateToken
              register_taken_email sample_db "a@x.com" "carol" "secret1"
              eq_refl He eq_refl Hn eq_refl Hl)
    as (m & resp & Hm & Hrun & Hst & _ & _ & Hemail & _).
  - exists alice. split; [left | left; reflexivity].
  - exists m, resp. split; [exact Hm|]. split; [exact Hrun|].
    split; [exact Hst|]. apply Hemail. intros x Hx.
    assert (head (filter (λ u, user_username u = "carol") (users sample_db)) = None)
      as Hnone by (vm_compute; reflexivity).
    exact (proj1 (head_filter_None _ _) Hnone x Hx).
Defined.

(** ** The end-to-end example of the specification *)

Example end_to_end :
  let db1 := served (register sample_hashPassword sample_generateToken register_alice)
                    empty_db in
  let db2 := served (addAsset (alice_adds "btc")) db1 in
  status_of (run (register sample_hashPassword sample_generateToken register_alice)
                 empty_db) = Some 201
  ∧ status_of (run (login sample_comparePassword sample_generateToken login_alice)
                   db1) = Some 200
  ∧ (run (addAsset (alice_adds "btc")) db1).1.1
      = inr (mkResponse 201
               (asset_json "资产添加成功"
                  (mkAsset 1 1 "BTC" "Bitcoin" "crypto" None 0)))
  ∧ (run (addAsset (alice_adds "BTC")) db2).1.1 = inr conflict
  ∧ (run (deleteAsset (mkRequest (Some alice_token) 7 ∅)) db2).1
      = (inr not_found, db2).
Proof. vm_compute. repeat split; reflexivity. Qed.

(* ------------------------------------------------------------------ *)
(** * Further properties of the controllers *)

(** ** Programs in general *)

Lemma run_with_ends_in {A : Type} (P : A → Prop) (p : Prog A) :
  ends_in P p → ∀ env db, ∃ a, (run_with env p db).1.1 = inr a ∧ P a.
Proof.
  induction p as [a|e|R q k IH]; simpl; intros Hp env db.
  - eauto.
  - done.
  - destruct (exec q (interfere env db)) as [r db2].
    destruct (IH r (Hp r) (tail env) db2) as (a & Ha & HP).
    destruct (run_with (tail env) (k r) db2) as [[res db3] t].
    simpl in *. eauto.
Qed.

(** A store property kept by every query is kept by every program, as long
    as the other requests keep it too. *)
Lemma run_with_invariant {A : Type} (I : Db → Prop) :
  (∀ R (q : Query R) db, I db → I (exec q db).2) →
  ∀ (p : Prog A) env db,
    Forall (λ f, ∀ d, I d → I (f d)) env → I db → I (run_with env p db).1.2.
Proof.
  intros Hexec p. induction p as [a|e|R q k IH]; simpl; intros env db Henv Hdb.
  - done.
  - done.
  - assert (I (interfere env db)) as H1.
    { destruct Henv as [|f env Hf _]; simpl; auto. }
    pose proof (Hexec _ q _ H1) as H2.
    destruct (exec q (interfere env db)) as [r db2]. simpl in H2.
    assert (Forall (λ f, ∀ d, I d → I (f d)) (tail env)) as Htl.
    { destruct Henv; simpl; auto. }
    pose proof (IH r (tail env) db2 Htl H2) as H3.
    destruct (run_with (tail env) (k r) db2) as [[res db3] t]. done.
Qed.

(** ** What a handler can answer *)

Ltac solve_ends_in :=
  repeat first
    [ progress cbn
    | progress intros
    | match goal with
      | |- context [call ?x] => destruct x
      | |- context [match ?x with _ => _ end] => destruct x
      | |- context [if ?x then _ else _] => destruct x
      end ];
  try (unfold status_in; cbn; apply list_elem_of_In; cbn; tauto).

Lemma getAssets_ends (req : Request) :
  ends_in (status_in [200; 401; 500]) (getAssets req).
Proof. unfold getAssets. solve_ends_in. Qed.

Lemma addAsset_ends (req : Request) :
  ends_in (status_in [201; 400; 401; 500]) (addAsset req).
Proof. unfold addAsset. solve_ends_in. Qed.

Lemma updateAsset_ends (req : Request) :
  ends_in (status_in [200; 401; 404; 500]) (updateAsset req).
Proof. unfold updateAsset. solve_ends_in. Qed.

Lemma deleteAsset_ends (req : Request) :
  ends_in (status_in [200; 401; 404; 500]) (deleteAsset req).
Proof. unfold deleteAsset. solve_ends_in. Qed.

Section AuthEnds.

Variable hashPassword : JsValue → Exn + string.
Variable comparePassword : JsValue → string → Exn + bool.
Variable generateToken : JwtPayload → string.

Lemma register_ends (req : Request) :
  ends_in (status_in [201; 400; 500]) (register hashPassword generateToken req).
Proof. unfold register. solve_ends_in. Qed.

Lemma login_ends (req : Request) :
  ends_in (status_in [200; 400; 401; 500]) (login comparePassword generateToken req).
Proof. unfold login. solve_ends_in. Qed.

(** X1. No exception leaves a handler, whatever the request, the store and
    the other requests served in between: each of the six handlers ends with
    a response, and its status is one of the statuses of that handler. *)
Theorem handlers_always_answer (req : Request) :
  always_answers (getAssets req) [200; 401; 500]
  ∧ always_answers (addAsset req) [201; 400; 401; 500]
  ∧ always_answers (updateAsset req) [200; 401; 404; 500]
  ∧ always_answers (deleteAsset req) [200; 401; 404; 500]
  ∧ always_answers (register hashPassword generateToken req) [201; 400; 500]
  ∧ always_answers (login comparePassword generateToken req) [200; 400; 401; 500].
Proof.
  unfold always_answers.
  repeat split; intros env db;
    match goal with |- context [status _ ∈ ?l] =>
      apply (run_with_ends_in (status_in l)) end;
    [apply getAssets_ends | apply addAsset_ends | apply updateAsset_ends
    | apply deleteAsset_ends | apply register_ends | apply login_ends].
Qed.

End AuthEnds.

(** ** Requests that fail change nothing *)

Lemma exec_inl_unchanged {R : Type} (q : Query R) (db db' : Db) (e : Exn) :
  exec q db = (inl e, db') → db' = db.
Proof.
  destruct q; unfold exec; intros H;
    repeat (match type of H with
            | context [match ?x with _ => _ end] => destruct x
            | context [if ?x then _ else _] => destruct x
            end; try discriminate);
    by injection H.
Qed.

Lemma exec_asset_findMany_unchanged (u : Z) (db db' : Db) r :
  exec (asset_findMany u) db = (r, db') → db' = db.
Proof. unfold exec. by intros [= _ <-]. Qed.

Lemma exec_asset_findUnique_id_unchanged (i : Z) (db db' : Db) r :
  exec (asset_findUnique_id i) db = (r, db') → db' = db.
Proof. unfold exec. by intros [= _ <-]. Qed.

Lemma exec_asset_findUnique_key_unchanged (u : Z) (s : string) (db db' : Db) r :
  exec (asset_findUnique_userId_symbol u s) db = (r, db') → db' = db.
Proof. unfold exec. by intros [= _ <-]. Qed.

Lemma exec_user_findFirst_unchanged (e n : JsValue) (db db' : Db) r :
  exec (user_findFirst e n) db = (r, db') → db' = db.
Proof.
  unfold exec. destruct (as_string e), (as_string n); by intros [= _ <-].
Qed.

Ltac walk_run H :=
  repeat (cbn in H;
          match type of H with
          | context [call ?x] => destruct x eqn:?
          | context [exec ?q ?d] =>
              let r := fresh "r" in let d' := fresh "d" in let E := fresh "E" in
              destruct (exec q d) as [r d'] eqn:E;
              first [ apply exec_asset_findMany_unchanged in E
                    | apply exec_asset_findUnique_id_unchanged in E
                    | apply exec_asset_findUnique_key_unchanged in E
                    | apply exec_user_findFirst_unchanged in E
                    | idtac ];
              destruct r as [?|?];
              try (apply exec_inl_unchanged in E);
              try subst d'
          | context [match ?x with _ => _ end] =>
              lazymatch x with
              | run_with _ _ _ => fail
              | _ => destruct x eqn:?
              end
          | context [if ?x then _ else _] => destruct x eqn:?
          end).

Section Atomic.

Variable hashPassword : JsValue → Exn + string.
Variable comparePassword : JsValue → string → Exn + bool.
Variable generateToken : JwtPayload → string.

(** X2. A handler served alone changes the store only when it answers with
    its success status: a list and a login never change it, and an add, an
    update, a delete or a register that answers anything but 201, 200, 200
    and 201 leaves it exactly as it was. *)
Theorem failed_request_changes_nothing (req : Request) (db : Db) :
  (run (getAssets req) db).1.2 = db
  ∧ (run (login comparePassword generateToken req) db).1.2 = db
  ∧ (∀ resp db', (run (addAsset req) db).1 = (inr resp, db') →
       status resp ≠ 201 → db' = db)
  ∧ (∀ resp db', (run (updateAsset req) db).1 = (inr resp, db') →
       status resp ≠ 200 → db' = db)
  ∧ (∀ resp db', (run (deleteAsset req) db).1 = (inr resp, db') →
       status resp ≠ 200 → db' = db)
  ∧ (∀ resp db', (run (register hashPassword generateToken req) db).1
                   = (inr resp, db') →
       status resp ≠ 201 → db' = db).
Proof.
  split.
  { destruct (run (getAssets req) db) as [[res d] t] eqn:H.
    unfold run, getAssets in H. walk_run H; by injection H as <- <- <-. }
  split.
  { destruct (run (login comparePassword generateToken req) db) as [[res d] t] eqn:H.
    unfold run, login in H. walk_run H; by injection H as <- <- <-. }
  split.
  { intros resp db' H Hst. unfold run, addAsset in H.
    walk_run H; injection H as <- <-; done. }
  split.
  { intros resp db' H Hst. unfold run, updateAsset in H.
    walk_run H; injection H as <- <-; done. }
  split.
  { intros resp db' H Hst. unfold run, deleteAsset in H.
    walk_run H; injection H as <- <-; done. }
  intros resp db' H Hst. unfold run, register in H.
  walk_run H; injection H as <- <-; done.
Qed.

End Atomic.

(** ** addAsset: what is refused before the store is asked *)

(** X3. An add call from a verified user in which the symbol, the name or
    the type is missing or falsy (absent, [null], the empty string, 0,
    [false]) is the 400 response with the required-fields message and
    nothing else: no query is made and the store is as it was, whatever the
    other fields are. *)
Theorem addAsset_missing_field (req : Request) (u : Z) :
  userId_of req = Some u → u ≠ 0 →
  truthy (field (req_body req) "symbol") = false
  ∨ truthy (field (req_body req) "name") = false
  ∨ truthy (field (req_body req) "type") = false →
  addAsset req
    = Ret (mkResponse 400 (error_json "资产代码、名称和类型都是必填项"))
  ∧ ∀ env db,
      run_with env (addAsset req) db
        = (inr (mkResponse 400 (error_json "资产代码、名称和类型都是必填项")), db, []).
Proof.
  intros Hu Hz Hmiss.
  assert (addAsset req
            = Ret (mkResponse 400 (error_json "资产代码、名称和类型都是必填项"))) as E.
  { unfold addAsset. rewrite Hu, (truthy_userId _ Hz).
    destruct Hmiss as [->|[->| ->]]; cbn;
      repeat (match goal with |- context [truthy ?x] => destruct (truthy x) end;
              cbn); reflexivity. }
  rewrite E. done.
Qed.

Lemma addAsset_missing_field_witness :
  addAsset (mkRequest (Some bob_token) 0
              (json_object [("symbol", JStr "btc"); ("name", JStr "");
                            ("type", JStr "crypto")]))
    = Ret (mkResponse 400 (error_json "资产代码、名称和类型都是必填项")).
Proof.
  assert (Hz : (2 : Z) ≠ 0) by lia.
  exact (proj1 (addAsset_missing_field
                  (mkRequest (Some bob_token) 0
                     (json_object [("symbol", JStr "btc"); ("name", JStr "");
                                   ("type", JStr "crypto")]))
                  2 eq_refl Hz (or_intror (or_introl eq_refl)))).
Defined.

(** X4. An add call from a verified user whose symbol is truthy but not a
    string (a non-zero number, [true]), with a name and a type, throws at
    [symbol.toUpperCase()] before the store is asked: the answer is the
    server error (500), not a validation error, and no query is made. *)
Theorem addAsset_symbol_not_a_string (req : Request) (u : Z) :
  userId_of req = Some u → u ≠ 0 →
  present req "symbol" → present req "name" → present req "type" →
  (∀ s, field (req_body req) "symbol" ≠ JStr s) →
  addAsset req = Ret internal_error
  ∧ status internal_error = 500
  ∧ ∀ env db, run_with env (addAsset req) db = (inr internal_error, db, []).
Proof.
  unfold present. intros Hu Hz Ps Pn Pt Hs.
  assert (addAsset req = Ret internal_error) as E.
  { unfold addAsset. rewrite Hu, (truthy_userId _ Hz), Ps, Pn, Pt. cbn.
    destruct (field (req_body req) "symbol") as [| |b|n|s]; try reflexivity.
    by destruct (Hs s). }
  rewrite E. done.
Qed.

Lemma addAsset_symbol_not_a_string_witness :
  addAsset (mkRequest (Some bob_token) 0
              (json_object [("symbol", JNum 42); ("name", JStr "Answer");
                            ("type", JStr "other")]))
    = Ret internal_error.
Proof.
  assert (Hz : (2 : Z) ≠ 0) by lia.
  refine (proj1 (addAsset_symbol_not_a_string
                   (mkRequest (Some bob_token) 0
                      (json_object [("symbol", JNum 42); ("name", JStr "Answer");
                                    ("type", JStr "other")]))
                   2 eq_refl Hz eq_refl eq_refl eq_refl _)).
  intros s H. vm_compute in H. discriminate.
Defined.

(** ** deleteAsset on an asset of the caller *)

(** X5. A delete by the owner of the asset answers 200 with the success
    message after one lookup and one delete; the asset is gone from the
    store, every other asset, the users and the counters are as they were,
    and the same delete sent again gets the not-found response and changes
    nothing. *)
Theorem deleteAsset_owned (req : Request) (db : Db) (a : Asset) (u : Z) :
  userId_of req = Some u → u ≠ 0 →
  assets db !! req_params_id req = Some a → asset_userId a = u →
  let db' := set_assets db (delete (req_params_id req) (assets db)) in
  run (deleteAsset req) db
    = (inr (mkResponse 200 (message_json "资产删除成功")), db',
       [existT _ (asset_findUnique_id (req_params_id req));
        existT _ (asset_delete (req_params_id req))])
  ∧ assets db' !! req_params_id req = None
  ∧ (∀ j, j ≠ req_params_id req → assets db' !! j = assets db !! j)
  ∧ users db' = users db ∧ nextAssetId db' = nextAssetId db
  ∧ (run (deleteAsset req) db').1 = (inr not_found, db').
Proof.
  intros Hu Hz Ha Ho db'. split.
  { unfold run, deleteAsset. rewrite Hu, (truthy_userId _ Hz). cbn.
    unfold exec at 1. cbn. rewrite Ha, (same_owner _ _ Ho). cbn.
    unfold exec. rewrite Ha. reflexivity. }
  split; [apply lookup_delete_eq|].
  split; [intros j Hj; by apply lookup_delete_ne|].
  split; [done|]. split; [done|].
  unfold run, deleteAsset. rewrite Hu, (truthy_userId _ Hz). cbn.
  unfold exec. cbn. rewrite lookup_delete_eq. reflexivity.
Qed.

Lemma deleteAsset_owned_witness :
  (run (deleteAsset (mkRequest (Some bob_token) 1 ∅)) sample_db).1.1
    = inr (mkResponse 200 (message_json "资产删除成功"))
  ∧ assets (set_assets sample_db (delete 1 (assets sample_db))) !! 1 = None.
Proof.
  assert (Hz : (2 : Z) ≠ 0) by lia.
  destruct (deleteAsset_owned (mkRequest (Some bob_token) 1 ∅) sample_db
              bob_aapl 2 eq_refl Hz eq_refl eq_refl) as (Hrun & Hgone & _).
  split; [by rewrite Hrun | exact Hgone].
Defined.

(** ** What a list shows after an add, an update, a delete *)

Lemma run_getAssets (req : Request) (db : Db) (u : Z) :
  userId_of req = Some u → u ≠ 0 →
  run (getAssets req) db
    = (inr (res_json (assets_json
              (merge_sort newer_first (filter (owned_by u) (rows db))))),
       db, [existT _ (asset_findMany u)]).
Proof.
  intros Hu Hz. unfold run, getAssets. rewrite Hu, (truthy_userId _ Hz).
  reflexivity.
Qed.

Lemma listed_perm (v : Z) (db1 db2 : Db) (extra1 extra2 : list Asset) :
  extra1 ++ rows db1 ≡ₚ extra2 ++ rows db2 →
  filter (owned_by v) extra1 ++ listed v db1
    ≡ₚ filter (owned_by v) extra2 ++ listed v db2.
Proof.
  intros H. unfold listed. rewrite !merge_sort_Permutation.
  rewrite <- !filter_app. by rewrite H.
Qed.

Lemma rows_insert_fresh (db : Db) (i : Z) (a : Asset) (n1 n2 t : Z) (us : list User) :
  assets db !! i = None →
  rows (mkDb (<[i := a]> (assets db)) n1 us n2 t) ≡ₚ a :: rows db.
Proof.
  intros H. unfold rows. simpl. by rewrite (map_to_list_insert _ _ _ H).
Qed.

Lemma rows_delete (db : Db) (i : Z) (a : Asset) :
  assets db !! i = Some a →
  a :: rows (set_assets db (delete i (assets db))) ≡ₚ rows db.
Proof.
  intros H. unfold rows. simpl. by rewrite <- (map_to_list_delete _ _ _ H).
Qed.

Lemma rows_insert_over (db : Db) (i : Z) (a a' : Asset) :
  assets db !! i = Some a →
  a :: rows (set_assets db (<[i := a']> (assets db))) ≡ₚ a' :: rows db.
Proof.
  intros H. unfold rows. simpl.
  rewrite <- (insert_delete_eq (assets db) i a').
  rewrite map_to_list_insert by apply lookup_delete_eq.
  rewrite <- (map_to_list_delete _ _ _ H). simpl. apply perm_swap.
Qed.

Lemma filter_owned_here (v : Z) (a : Asset) :
  asset_userId a = v → filter (owned_by v) [a] = [a].
Proof. intros H. rewrite filter_cons, filter_nil. by rewrite decide_True. Qed.

Lemma filter_owned_away (v : Z) (a : Asset) :
  asset_userId a ≠ v → filter (owned_by v) [a] = [].
Proof. intros H. rewrite filter_cons, filter_nil. by rewrite decide_False. Qed.

(** X6. After an add that answers 201, the list of the caller is the list
    from before with the new asset in it, and the list of every other user
    has the same assets as before. *)
Theorem list_after_add (req reqL : Request) (db db' : Db) (resp : Response) (v : Z) :
  (run (addAsset req) db).1 = (inr resp, db') → status resp = 201 →
  userId_of reqL = Some v → v ≠ 0 →
  ∃ a l l',
    resp = mkResponse 201 (asset_json "资产添加成功" a)
    ∧ (run (getAssets reqL) db).1.1 = inr (mkResponse 200 (assets_json l))
    ∧ (run (getAssets reqL) db').1.1 = inr (mkResponse 200 (assets_json l'))
    ∧ (userId_of req = Some v → l' ≡ₚ a :: l)
    ∧ (userId_of req ≠ Some v → l' ≡ₚ l).
Proof.
  intros Hrun Hst Hv Hvz.
  destruct (addAsset_201_inv req db db' resp Hrun Hst)
    as (u & s & a & Hu & Hz & Hs & He & ->).
  destruct (exec_asset_create_inv _ _ _ _ He)
    as (n & t & o & _ & _ & _ & _ & Hfresh & Ea & ->).
  exists a, (listed v db), (listed v (mkDb (<[nextAssetId db := a]> (assets db))
               (nextAssetId db + 1) (users db) (nextUserId db) (now db))).
  split; [done|]. rewrite !(run_getAssets reqL _ v Hv Hvz).
  split; [done|]. split; [done|].
  pose proof (listed_perm v _ db [] [a]
                (rows_insert_fresh db _ a (nextAssetId db + 1) (nextUserId db)
                   (now db) (users db) Hfresh)) as Hp.
  rewrite filter_nil in Hp. simpl in Hp.
  assert (asset_userId a = u) as Hau by (by rewrite Ea).
  rewrite Hu. split.
  - intros [= ->]. by rewrite filter_owned_here in Hp.
  - intros Hne. rewrite filter_owned_away in Hp by congruence. done.
Qed.

(** X7. After an update that answers 200, the list of the asset's owner is
    the list from before with the asset replaced by the updated one, and the
    list of every other user has the same assets as before. *)
Theorem list_after_update (req reqL : Request) (db db' : Db) (resp : Response) (v : Z) :
  (run (updateAsset req) db).1 = (inr resp, db') → status resp = 200 →
  userId_of reqL = Some v → v ≠ 0 →
  ∃ a a' l l',
    assets db !! req_params_id req = Some a
    ∧ resp = mkResponse 200 (asset_json "资产更新成功" a')
    ∧ (run (getAssets reqL) db).1.1 = inr (mkResponse 200 (assets_json l))
    ∧ (run (getAssets reqL) db').1.1 = inr (mkResponse 200 (assets_json l'))
    ∧ (userId_of req = Some v → a :: l' ≡ₚ a' :: l)
    ∧ (userId_of req ≠ Some v → l' ≡ₚ l).
Proof.
  intros Hrun Hst Hv Hvz.
  destruct (updateAsset_200_inv req db db' resp Hrun Hst)
    as (u & a & a' & Hu & Hz & Ha & Ho & He & ->).
  destruct (exec_asset_update_inv _ _ _ _ _ He)
    as (a0 & n & t & o & Ha0 & _ & _ & _ & Ea' & ->).
  rewrite Ha in Ha0. injection Ha0 as <-.
  exists a, a', (listed v db),
    (listed v (set_assets db (<[req_params_id req := a']> (assets db)))).
  split; [done|]. split; [done|].
  rewrite !(run_getAssets reqL _ v Hv Hvz). split; [done|]. split; [done|].
  pose proof (listed_perm v _ db [a] [a'] (rows_insert_over db _ a a' Ha)) as Hp.
  assert (asset_userId a' = u) as Hau by (by rewrite Ea').
  rewrite Hu. split.
  - intros [= ->]. by rewrite !filter_owned_here in Hp.
  - intros Hne. rewrite !filter_owned_away in Hp by congruence. done.
Qed.

(** X8. After a delete that answers 200, the list of the asset's owner is
    the list from before without the deleted asset, and the list of every
    other user has the same assets as before. *)
Theorem list_after_delete (req reqL : Request) (db : Db) (a : Asset) (u v : Z) :
  userId_of req = Some u → u ≠ 0 →
  assets db !! req_params_id req = Some a → asset_userId a = u →
  userId_of reqL = Some v → v ≠ 0 →
  ∃ db' l l',
    (run (deleteAsset req) db).1
      = (inr (mkResponse 200 (message_json "资产删除成功")), db')
    ∧ (run (getAssets reqL) db).1.1 = inr (mkResponse 200 (assets_json l))
    ∧ (run (getAssets reqL) db').1.1 = inr (mkResponse 200 (assets_json l'))
    ∧ (v = u → l ≡ₚ a :: l')
    ∧ (v ≠ u → l' ≡ₚ l).
Proof.
  intros Hu Hz Ha Ho Hv Hvz.
  exists (set_assets db (delete (req_params_id req) (assets db))),
    (listed v db),
    (listed v (set_assets db (delete (req_params_id req) (assets db)))).
  split.
  { unfold run, deleteAsset. rewrite Hu, (truthy_userId _ Hz). cbn.
    unfold exec at 1. cbn. rewrite Ha, (same_owner _ _ Ho). cbn.
    unfold exec. rewrite Ha. reflexivity. }
  rewrite !(run_getAssets reqL _ v Hv Hvz). split; [done|]. split; [done|].
  pose proof (listed_perm v _ db [a] [] (rows_delete db _ a Ha)) as Hp.
  rewrite filter_nil in Hp. simpl in Hp.
  split.
  - intros ->. by rewrite filter_owned_here in Hp.
  - intros Hne. rewrite filter_owned_away in Hp by congruence. done.
Qed.

(** ** Sending an update twice *)





(** ** Invariants of the store *)

Lemma no_key_in_rows (db : Db) (u : Z) (s : string) (i : Z) (a : Asset) :
  filter (has_key u s) (rows db) = [] →
  assets db !! i = Some a → asset_userId a = u → asset_symbol a ≠ s.
Proof.
  intros Hf Hi Hu Hs.
  assert (a ∈ filter (has_key u s) (rows db)) as Hin.
  { apply list_elem_of_filter. split; [by split|]. apply elem_of_rows. eauto. }
  rewrite Hf in Hin. by apply not_elem_of_nil in Hin.
Qed.

Lemma exec_keeps_wf_assets {R : Type} (q : Query R) (db : Db) :
  wf_assets db → wf_assets (exec q db).2.
Proof.
  intros [Hid Huniq].
  destruct q as [u|u s|i|d|i d|i|e n|d]; unfold exec;
    try (by split).
  - destruct (as_string (aci_name d)) as [n|]; [|by split].
    destruct (as_string (aci_type d)) as [t|]; [|by split].
    destruct (as_nullable_string (aci_notes d)) as [o|]; [|by split].
    destruct (decide _) as [Hd|Hd]; [by split|].
    assert (¬ filter (has_key (aci_userId d) (aci_symbol d)) (rows db) ≠ []) as Hf
      by tauto.
    assert (¬ is_Some (assets db !! nextAssetId db)) as Hfresh by tauto.
    assert (filter (has_key (aci_userId d) (aci_symbol d)) (rows db) = []) as Hk
      by (destruct (filter _ (rows db)); [done|by destruct Hf]).
    clear Hf Hd.
    assert (assets db !! nextAssetId db = None) as Hnone
      by (destruct (assets db !! nextAssetId db) eqn:E; [destruct Hfresh; eauto|done]).
    split; simpl.
    + intros j b Hj. destruct (decide (nextAssetId db = j)) as [<-|Hne].
      * rewrite lookup_insert_eq in Hj. injection Hj as <-. simpl. lia.
      * rewrite lookup_insert_ne in Hj by done.
        destruct (Hid j b Hj). split; [done|lia].
    + intros j k b c Hj Hk' Hu Hs.
      destruct (decide (nextAssetId db = j)) as [<-|Hnj];
        destruct (decide (nextAssetId db = k)) as [<-|Hnk]; [done| | |].
      * rewrite lookup_insert_eq in Hj. injection Hj as <-.
        rewrite lookup_insert_ne in Hk' by done. simpl in Hu, Hs.
        destruct (no_key_in_rows db _ _ k c Hk Hk'); congruence.
      * rewrite lookup_insert_eq in Hk'. injection Hk' as <-.
        rewrite lookup_insert_ne in Hj by done. simpl in Hu, Hs.
        destruct (no_key_in_rows db _ _ j b Hk Hj); congruence.
      * rewrite lookup_insert_ne in Hj, Hk' by done. eauto.
  - destruct (string_patch (aui_name d)) as [n|]; [|by split].
    destruct (string_patch (aui_type d)) as [t|]; [|by split].
    destruct (nullable_string_patch (aui_notes d)) as [o|]; [|by split].
    destruct (assets db !! i) as [a|] eqn:Ha; [|by split].
    assert (∀ j b, <[i := mkAsset (asset_id a) (asset_userId a) (asset_symbol a)
                           (patch n (asset_name a)) (patch t (asset_type a))
                           (patch o (asset_notes a)) (asset_createdAt a)]>
                     (assets db) !! j = Some b →
                   ∃ b0, assets db !! j = Some b0 ∧ asset_id b = asset_id b0
                         ∧ asset_userId b = asset_userId b0
                         ∧ asset_symbol b = asset_symbol b0) as Hback.
    { intros j b Hj. destruct (decide (i = j)) as [<-|Hne].
      - rewrite lookup_insert_eq in Hj. injection Hj as <-. eauto.
      - rewrite lookup_insert_ne in Hj by done. eauto. }
    split; simpl.
    + intros j b Hj. destruct (Hback j b Hj) as (b0 & Hb0 & E & _).
      rewrite E. eauto.
    + intros j k b c Hj Hk Hu Hs.
      destruct (Hback j b Hj) as (b0 & Hb0 & _ & Eu & Es).
      destruct (Hback k c Hk) as (c0 & Hc0 & _ & Eu' & Es').
      apply (Huniq j k b0 c0); congruence.
  - destruct (assets db !! i) as [a|] eqn:Ha; [|by split].
    split; simpl.
    + intros j b Hj. apply lookup_delete_Some in Hj as [_ Hj]. eauto.
    + intros j k b c Hj Hk. apply lookup_delete_Some in Hj as [_ Hj].
      apply lookup_delete_Some in Hk as [_ Hk]. eauto.
  - destruct (as_string e), (as_string n); by split.
  - destruct (as_string (uci_email d)), (as_string (uci_username d));
      try (by split). destruct (decide _); by split.
Qed.

Lemma exec_keeps_wf_users {R : Type} (q : Query R) (db : Db) :
  wf_users db → wf_users (exec q db).2.
Proof.
  intros [He Hn].
  destruct q as [u|u s|i|d|i d|i|e n|d]; unfold exec; try (by split).
  - repeat (match goal with
            | |- context [match ?x with _ => _ end] => destruct x
            | |- context [if ?x then _ else _] => destruct x
            end; try (by split)).
  - repeat (match goal with
            | |- context [match ?x with _ => _ end] => destruct x
            | |- context [if ?x then _ else _] => destruct x
            end; try (by split)).
  - destruct (assets db !! i); by split.
  - destruct (as_string e), (as_string n); by split.
  - destruct (as_string (uci_email d)) as [e|]; [|by split].
    destruct (as_string (uci_username d)) as [n|]; [|by split].
    destruct (decide _) as [Hd|Hd]; [by split|].
    assert (∀ x, x ∈ users db → ¬ user_matches e n x) as Hno.
    { apply (proj1 (head_filter_None (user_matches e n) (users db))).
      destruct (filter _ (users db)); [done|]. destruct Hd. done. }
    unfold wf_users. simpl. rewrite !fmap_app. simpl.
    split; apply NoDup_app; (split; [done|]);
      (split; [|apply NoDup_singleton]);
      intros y Hy Hy'; apply list_elem_of_singleton in Hy' as ->;
      apply list_elem_of_fmap in Hy as (x & Hx & Hin);
      apply (Hno x Hin); unfold user_matches; auto.
Qed.

Lemma wf_store_sample_db : wf_store sample_db.
Proof.
  split; [split|split].
  - change (map_Forall (λ i a, asset_id a = i ∧ i < nextAssetId sample_db)
              (assets sample_db)).
    apply (bool_decide_unpack _). vm_compute. exact I.
  - assert (map_Forall (λ i a, map_Forall (λ j b,
              asset_userId a = asset_userId b → asset_symbol a = asset_symbol b →
              i = j) (assets sample_db)) (assets sample_db)) as H
      by (apply (bool_decide_unpack _); vm_compute; exact I).
    intros i j a b Hi Hj. exact (H i a Hi j b Hj).
  - apply (bool_decide_unpack _). vm_compute. exact I.
  - apply (bool_decide_unpack _). vm_compute. exact I.
Defined.

Section Invariants.

Variable hashPassword : JsValue → Exn + string.
Variable comparePassword : JsValue → string → Exn + bool.
Variable generateToken : JwtPayload → string.

(** X10. The handlers keep the store well formed: if each asset sits under
    its own id below the next id, no two assets have the same owner and
    symbol, and no two users the same email or the same username, then this
    still holds after any of the six handlers has run, on any request, and
    whatever other requests that keep it are served between its queries.
    The unique keys are those of the store; no handler writes around them. *)
Theorem handlers_keep_store_well_formed
    (req : Request) (env : list (Db → Db)) (db : Db) :
  Forall (λ f, ∀ d, wf_store d → wf_store (f d)) env → wf_store db →
  wf_store (run_with env (getAssets req) db).1.2
  ∧ wf_store (run_with env (addAsset req) db).1.2
  ∧ wf_store (run_with env (updateAsset req) db).1.2
  ∧ wf_store (run_with env (deleteAsset req) db).1.2
  ∧ wf_store (run_with env (register hashPassword generateToken req) db).1.2
  ∧ wf_store (run_with env (login comparePassword generateToken req) db).1.2.
Proof.
  intros Henv Hdb.
  assert (∀ R (q : Query R) d, wf_store d → wf_store (exec q d).2) as Hexec.
  { intros R q d [Ha Hu]. split;
      [by apply exec_keeps_wf_assets | by apply exec_keeps_wf_users]. }
  repeat (split; [by apply (run_with_invariant wf_store Hexec)|]).
  by apply (run_with_invariant wf_store Hexec).
Qed.

End Invariants.

Lemma handlers_keep_store_well_formed_witness :
  wf_store (run_with [served (addAsset alice_adds_btc)]
                     (addAsset bob_adds_aapl) sample_db).1.2
  ∧ wf_store (run_with [] (register sample_hashPassword sample_generateToken
                             register_taken_email) sample_db).1.2.
Proof.
  assert (Forall (λ f, ∀ d, wf_store d → wf_store (f d))
            [served (addAsset alice_adds_btc)]) as Henv.
  { constructor; [|constructor]. intros d Hd. unfold served, run.
    exact (proj1 (proj2 (handlers_keep_store_well_formed
             sample_hashPassword sample_comparePassword sample_generateToken
             alice_adds_btc [] d (Forall_nil_2 _) Hd))). }
  split.
  - exact (proj1 (proj2 (handlers_keep_store_well_formed
             sample_hashPassword sample_comparePassword sample_generateToken
             bob_adds_aapl _ sample_db Henv wf_store_sample_db))).
  - exact (proj1 (proj2 (proj2 (proj2 (proj2 (handlers_keep_store_well_formed
             sample_hashPassword sample_comparePassword sample_generateToken
             register_taken_email [] sample_db (Forall_nil_2 _)
             wf_store_sample_db)))))).
Defined.

(** ** register and login *)

Section AuthMore.

Variable hashPassword : JsValue → Exn + string.
Variable comparePassword : JsValue → string → Exn + bool.
Variable generateToken : JwtPayload → string.

(** X11. A register call is refused before the store is asked, with 400
    and no query, in two cases: an email, a username or a password that is
    missing or falsy gets the required-fields message; otherwise a password
    that is a string of fewer than six characters gets the password-length
    message. *)
Theorem register_validation (req : Request) :
  let email := field (req_body req) "email" in
  let username := field (req_body req) "username" in
  let password := field (req_body req) "password" in
  (truthy email = false ∨ truthy username = false ∨ truthy password = false →
   register hashPassword generateToken req = Ret fields_required)
  ∧ (∀ p, truthy email = true → truthy username = true →
          password = JStr p → p ≠ "" → (String.length p < 6)%nat →
          register hashPassword generateToken req = Ret password_too_short)
  ∧ status fields_required = 400 ∧ status password_too_short = 400
  ∧ ∀ resp env db,
      register hashPassword generateToken req = Ret resp →
      run_with env (register hashPassword generateToken req) db = (inr resp, db, []).
Proof.
  intros email username password. split; [|split].
  - intros Hmiss. unfold register. fold email username password.
    destruct Hmiss as [->|[->| ->]]; cbn;
      repeat (match goal with |- context [truthy ?x] => destruct (truthy x) end;
              cbn); reflexivity.
  - intros p He Hn Hp Hp0 Hlen. unfold register. fold email username password.
    rewrite He, Hn, Hp, (nonempty_truthy _ Hp0). cbn.
    assert ((Z.of_nat (String.length p) <? 6) = true) as ->
      by (apply Z.ltb_lt; lia).
    reflexivity.
  - split; [done|]. split; [done|]. intros resp env db ->. reflexivity.
Qed.

(** X12. The six-character minimum holds passwords that are strings only:
    a password that is a non-zero number or [true] has no length, the test
    lets it through, and the handler goes on to look the email and the
    username up in the store. *)
Theorem register_password_not_a_string (req : Request) (db : Db) (e n : string) :
  field (req_body req) "email" = JStr e → e ≠ "" →
  field (req_body req) "username" = JStr n → n ≠ "" →
  present req "password" →
  (∀ p, field (req_body req) "password" ≠ JStr p) →
  ∃ t,
    (run (register hashPassword generateToken req) db).2
      = existT _ (user_findFirst (JStr e) (JStr n)) :: t
    ∧ (run (register hashPassword generateToken req) db).1.1
        ≠ inr password_too_short.
Proof.
  intros He He0 Hn Hn0 Pp Hp. unfold present in Pp.
  unfold run, register.
  rewrite He, Hn, (nonempty_truthy _ He0), (nonempty_truthy _ Hn0), Pp. cbn.
  destruct (field (req_body req) "password") as [| |b|m|p] eqn:E;
    try discriminate; [| |by destruct (Hp p)]; cbn;
    rewrite exec_user_findFirst; cbn;
    (destruct (head (filter (user_matches e n) (users db))) as [x|]; cbn;
     [ unfold strict_eq;
       destruct (bool_decide (JStr (user_email x) = JStr e)); cbn;
       [eexists; split; [reflexivity|discriminate]|];
       destruct (bool_decide (JStr (user_username x) = JStr n)); cbn;
       [eexists; split; [reflexivity|discriminate]|]
     | ]);
    (destruct (hashPassword _) as [err|h]; cbn;
     [eexists; split; [reflexivity|discriminate]|];
     destruct (exec (user_create _) db) as [[err|usr] db2]; cbn;
     eexists; split; try reflexivity; discriminate).
Qed.

Lemma run_register_created (req : Request) (db : Db) (e n p h : string) :
  field (req_body req) "email" = JStr e → e ≠ "" →
  field (req_body req) "username" = JStr n → n ≠ "" →
  field (req_body req) "password" = JStr p → (6 ≤ String.length p)%nat →
  (∀ x, x ∈ users db → user_email x ≠ e ∧ user_username x ≠ n) →
  hashPassword (JStr p) = inr h →
  let user := mkUser (nextUserId db) e n h (now db) in
  (run (register hashPassword generateToken req) db).1
    = (inr (mkResponse 201
              (auth_json "注册成功"
                 (mkPublicUser (nextUserId db) e n (Some (now db)))
                 (generateToken (mkJwtPayload (nextUserId db) e n)))),
       mkDb (assets db) (nextAssetId db) (users db ++ [user])
            (nextUserId db + 1) (now db)).
Proof.
  intros He He0 Hn Hn0 Hp Hlen Hfree Hh user.
  assert (head (filter (user_matches e n) (users db)) = None) as Hnone.
  { apply head_filter_None. intros x Hx [E|E]; by destruct (Hfree x Hx). }
  assert (p ≠ "") as Hp0 by (intros ->; simpl in Hlen; lia).
  unfold run, register.
  rewrite He, Hn, Hp, (nonempty_truthy _ He0), (nonempty_truthy _ Hn0),
    (nonempty_truthy _ Hp0). cbn.
  assert ((Z.of_nat (String.length p) <? 6) = false) as -> by (apply Z.ltb_ge; lia).
  cbn. rewrite exec_user_findFirst, Hnone. cbn. rewrite Hh. cbn.
  unfold exec. cbn.
  apply head_None in Hnone. rewrite Hnone.
  destruct (decide _) as [Hd|Hd]; [done|]. reflexivity.
Qed.


(** X13. A register call with an email and a username that no user has, a
    password of six characters or more, and a hash from [hashPassword]:
    the answer is 201; one user is added at the end of the users, with the
    next id, the email, the username, the hash as its password and the time
    of the store; the response carries that user's id, email, username and
    creation time, and the token made from its id, email and username. The
    assets are as they were. *)
Theorem register_creates_user (req : Request) (db : Db) (e n p h : string) :
  field (req_body req) "email" = JStr e → e ≠ "" →
  field (req_body req) "username" = JStr n → n ≠ "" →
  field (req_body req) "password" = JStr p → (6 ≤ String.length p)%nat →
  (∀ x, x ∈ users db → user_email x ≠ e ∧ user_username x ≠ n) →
  hashPassword (JStr p) = inr h →
  let user := mkUser (nextUserId db) e n h (now db) in
  (run (register hashPassword generateToken req) db).1
    = (inr (mkResponse 201
              (auth_json "注册成功"
                 (mkPublicUser (nextUserId db) e n (Some (now db)))
                 (generateToken (mkJwtPayload (nextUserId db) e n)))),
       mkDb (assets db) (nextAssetId db) (users db ++ [user])
            (nextUserId db + 1) (now db)).
Proof. apply run_register_created. Qed.

End AuthMore.

Section AuthRoundTrip.

Variable hashPassword : JsValue → Exn + string.
Variable comparePassword : JsValue → string → Exn + bool.
Variable generateToken : JwtPayload → string.

(** X14. A login answers 200 only for an identifier that is the email or
    the username of a stored user whose hash the password verifies against
    ([comparePassword] gave [true]); the response then carries that user's
    id, email and username and the token made from them, and the store is
    as it was. *)
Theorem login_succeeds_only_if_verified
    (req : Request) (db db' : Db) (resp : Response) :
  (run (login comparePassword generateToken req) db).1 = (inr resp, db') →
  status resp = 200 →
  ∃ i user,
    field (req_body req) "emailOrUsername" = JStr i
    ∧ user ∈ users db
    ∧ (user_email user = i ∨ user_username user = i)
    ∧ comparePassword (field (req_body req) "password") (user_password user)
        = inr true
    ∧ resp = mkResponse 200
               (auth_json "登录成功"
                  (mkPublicUser (user_id user) (user_email user)
                                (user_username user) None)
                  (generateToken (mkJwtPayload (user_id user) (user_email user)
                                               (user_username user))))
    ∧ db' = db.
Proof.
  intros Hrun Hst.
  destruct (truthy (field (req_body req) "emailOrUsername")) eqn:Ti.
  2:{ unfold run, login in Hrun. rewrite Ti in Hrun. cbn in Hrun.
      injection Hrun as <- <-. discriminate. }
  destruct (truthy (field (req_body req) "password")) eqn:Tp.
  2:{ unfold run, login in Hrun. rewrite Ti, Tp in Hrun. cbn in Hrun.
      injection Hrun as <- <-. discriminate. }
  destruct (field (req_body req) "emailOrUsername") as [| |b|m|i] eqn:Hi;
    try discriminate Ti;
    try (unfold run, login in Hrun; rewrite Hi in Hrun; rewrite Ti, Tp in Hrun;
         cbn in Hrun; injection Hrun as <- <-; discriminate).
  assert (i ≠ "") as Hi0.
  { intros ->. discriminate. }
  destruct (head (filter (user_matches i i) (users db))) as [user|] eqn:Hf.
  - rewrite (run_login_found comparePassword generateToken req db i user
               Hi Hi0 Tp Hf) in Hrun.
    destruct (head_filter_Some _ _ _ Hf) as [Hin Hm].
    destruct (comparePassword _ _) as [err|[|]] eqn:Hc;
      injection Hrun as <- <-; try discriminate.
    exists i, user. done.
  - rewrite (run_login_unknown comparePassword generateToken req db i
               Hi Hi0 Tp Hf) in Hrun.
    injection Hrun as <- <-. discriminate.
Qed.

(** X15. Register, then login. After a register that creates a user
    (X13), a login with the same password and that user's email or username
    answers 200 with that user's id, email and username and a token made
    from them, provided the password verifies against its hash and no
    earlier user has the identifier as email or as username: the lookup
    takes the first user it finds under the identifier. *)
Theorem register_then_login
    (req reqL : Request) (db : Db) (e n p h i : string) :
  field (req_body req) "email" = JStr e → e ≠ "" →
  field (req_body req) "username" = JStr n → n ≠ "" →
  field (req_body req) "password" = JStr p → (6 ≤ String.length p)%nat →
  (∀ x, x ∈ users db → user_email x ≠ e ∧ user_username x ≠ n) →
  hashPassword (JStr p) = inr h →
  comparePassword (JStr p) h = inr true →
  field (req_body reqL) "emailOrUsername" = JStr i → i = e ∨ i = n →
  field (req_body reqL) "password" = JStr p →
  (∀ x, x ∈ users db → user_email x ≠ i ∧ user_username x ≠ i) →
  let db' := (run (register hashPassword generateToken req) db).1.2 in
  (run (login comparePassword generateToken reqL) db').1
    = (inr (mkResponse 200
              (auth_json "登录成功"
                 (mkPublicUser (nextUserId db) e n None)
                 (generateToken (mkJwtPayload (nextUserId db) e n)))),
       db').
Proof.
  intros He He0 Hn Hn0 Hp Hlen Hfree Hh Hc Hi Hie HpL Hfree' db'.
  assert (p ≠ "") as Hp0 by (intros ->; simpl in Hlen; lia).
  assert (i ≠ "") as Hi0 by (destruct Hie; congruence).
  assert (db' = mkDb (assets db) (nextAssetId db)
                     (users db ++ [mkUser (nextUserId db) e n h (now db)])
                     (nextUserId db + 1) (now db)) as Edb.
  { unfold db'.
    pose proof (run_register_created hashPassword generateToken req db e n p h
                  He He0 Hn Hn0 Hp Hlen Hfree Hh) as Hr.
    by rewrite Hr. }
  assert (head (filter (user_matches i i) (users db')) =
          Some (mkUser (nextUserId db) e n h (now db))) as Hfound.
  { rewrite Edb. simpl. rewrite filter_app.
    assert (filter (user_matches i i) (users db) = []) as ->.
    { apply head_None, head_filter_None.
      intros x Hx [E|E]; by destruct (Hfree' x Hx). }
    simpl. rewrite filter_cons, decide_True; [done|].
    unfold user_matches. simpl. destruct Hie; auto. }
  assert (present reqL "password") as Pp.
  { unfold present. rewrite HpL. by apply nonempty_truthy. }
  rewrite (run_login_found comparePassword generateToken reqL db' i _
             Hi Hi0 Pp Hfound).
  simpl. rewrite HpL, Hc. reflexivity.
Qed.

End AuthRoundTrip.

(** ** The gate: middleware/auth.ts and routes/assetRoutes.ts *)

Lemma startsWith_spec (s p : string) :
  startsWith s p = true ↔ ∃ r, s = String.append p r.
Proof.
  unfold startsWith. revert s. induction p as [|c p IH]; intros s.
  - split; [intros _; by exists s|]. intros _. by destruct s.
  - destruct s as [|d s]; simpl.
    + split; [done|]. intros [r Hr]. discriminate.
    + destruct (Ascii.ascii_dec c d) as [->|Hne].
      * rewrite (IH s). split.
        -- intros [r ->]. by exists r.
        -- intros [r Hr]. simpl in Hr. injection Hr as ->. by exists r.
      * split; [done|]. intros [r Hr]. simpl in Hr. injection Hr as Hd _.
        by destruct Hne.
Qed.

Lemma substring_from_append (p r : string) :
  substring_from (String.length p) (String.append p r) = r.
Proof. induction p as [|c p IH]; simpl; [by destruct r|done]. Qed.

Lemma append_cancel_l (p r1 r2 : string) :
  String.append p r1 = String.append p r2 → r1 = r2.
Proof.
  induction p as [|c p IH]; simpl; [done|]. intros [= H]. by apply IH.
Qed.

Lemma bearer_truthy (t : string) : truthy (JStr (String.append "Bearer " t)) = true.
Proof. reflexivity. Qed.

Section Gate.

Variable verifyToken : string → Exn + JwtPayload.

Lemma authMiddleware_bearer (headers : gmap string string) (req : Request) (t : string) :
  headers !! "authorization" = Some (String.append "Bearer " t) →
  authMiddleware verifyToken headers req =
    match verifyToken t with
    | inr decoded => inr (set_user req decoded)
    | inl _ => inl bad_token
    end.
Proof.
  intros H. unfold authMiddleware. rewrite H.
  assert (startsWith (String.append "Bearer " t) "Bearer " = true) as ->
    by (apply startsWith_spec; eauto).
  rewrite bearer_truthy. cbn [negb orb].
  change 7%nat with (String.length "Bearer ").
  rewrite substring_from_append. reflexivity.
Qed.

Lemma authMiddleware_no_bearer (headers : gmap string string) (req : Request) :
  (∀ t, headers !! "authorization" ≠ Some (String.append "Bearer " t)) →
  authMiddleware verifyToken headers req = inl no_token.
Proof.
  intros H. unfold authMiddleware.
  destruct (headers !! "authorization") as [h|]; [|done].
  destruct (startsWith h "Bearer ") eqn:E.
  - apply startsWith_spec in E as [r ->]. by destruct (H r).
  - by rewrite orb_true_r.
Qed.

Lemma authMiddleware_cases
    (headers : gmap string string) (req req' : Request) :
  (authMiddleware verifyToken headers req = inr req'
   ↔ ∃ t decoded,
       headers !! "authorization" = Some (String.append "Bearer " t)
       ∧ verifyToken t = inr decoded
       ∧ req' = mkRequest (Some decoded) (req_params_id req) (req_body req))
  ∧ ∀ resp,
      authMiddleware verifyToken headers req = inl resp →
      status resp = 401
      ∧ ((∀ t, headers !! "authorization" ≠ Some (String.append "Bearer " t))
         ∧ resp = no_token
         ∨ (∃ t e, headers !! "authorization" = Some (String.append "Bearer " t)
                   ∧ verifyToken t = inl e)
           ∧ resp = bad_token).
Proof.
  destruct (headers !! "authorization") as [h|] eqn:Hh.
  - destruct (startsWith h "Bearer ") eqn:E.
    + apply startsWith_spec in E as [t ->].
      rewrite (authMiddleware_bearer headers req t Hh). split.
      * split.
        -- destruct (verifyToken t) as [e|d] eqn:Hv; [done|].
           intros [= <-]. exists t, d. done.
        -- intros (t' & d & [= Ht] & Hv & ->).
           assert (t' = t) as ->.
           { symmetry. exact (append_cancel_l _ _ _ Ht). }
           by rewrite Hv.
      * intros resp H. destruct (verifyToken t) as [e|d] eqn:Hv; [|done].
        injection H as <-. split; [done|]. right. split; [|done]. eauto.
    + assert (∀ t, headers !! "authorization" ≠ Some (String.append "Bearer " t)) as Hno.
      { intros t Ht. rewrite Hh in Ht. injection Ht as ->.
        assert (startsWith (String.append "Bearer " t) "Bearer " = true) as E'
          by (apply startsWith_spec; eauto).
        congruence. }
      rewrite <- Hh. rewrite (authMiddleware_no_bearer headers req Hno). split.
      * split; [done|]. intros (t & d & Ht & _). by destruct (Hno t).
      * intros resp [= <-]. split; [done|]. left. done.
  - assert (∀ t, headers !! "authorization" ≠ Some (String.append "Bearer " t)) as Hno
      by (intros t; by rewrite Hh).
    rewrite <- Hh. rewrite (authMiddleware_no_bearer headers req Hno). split.
    * split; [done|]. intros (t & d & Ht & _). by destruct (Hno t).
    * intros resp [= <-]. split; [done|]. left. done.
Qed.

(** X16. The middleware calls [next()] exactly when the [authorization]
    header is ["Bearer "] followed by a token that [verifyToken] accepts;
    the request it passes on has [req.user] set to the claims of that token,
    whatever it was before, and the same parameters and body. In every other
    case it answers 401 itself: the no-token message when the header is
    absent or is not of that form, the invalid-token message when
    the verification throws. *)
Theorem authMiddleware_passes_iff
    (headers : gmap string string) (req req' : Request) :
  (authMiddleware verifyToken headers req = inr req'
   ↔ ∃ t decoded,
       headers !! "authorization" = Some (String.append "Bearer " t)
       ∧ verifyToken t = inr decoded
       ∧ req' = mkRequest (Some decoded) (req_params_id req) (req_body req))
  ∧ ∀ resp,
      authMiddleware verifyToken headers req = inl resp →
      status resp = 401
      ∧ ((∀ t, headers !! "authorization" ≠ Some (String.append "Bearer " t))
         ∧ resp = no_token
         ∨ (∃ t e, headers !! "authorization" = Some (String.append "Bearer " t)
                   ∧ verifyToken t = inl e)
           ∧ resp = bad_token).
Proof. apply authMiddleware_cases. Qed.

(** X17. Every asset route is behind the middleware. When the request has
    no bearer token that verifies, the router answers 401 itself for every
    method and path, also those with no route: no handler runs and no query
    is made. When the token verifies, a route that matches runs its handler
    on the request with the claims of the token as [req.user]; what was on
    the request as [req.user] before does not matter. *)
Theorem assetRouter_gate
    (headers : gmap string string) (m : Method) (p : Path) (req : Request) :
  ((∀ t decoded, headers !! "authorization" = Some (String.append "Bearer " t) →
                 verifyToken t ≠ inr decoded) →
   ∃ resp, assetRouter verifyToken headers m p req = Some (Ret resp)
           ∧ status resp = 401
           ∧ ∀ env db, run_with env (Ret resp) db = (inr resp, db, []))
  ∧ (∀ t decoded,
       headers !! "authorization" = Some (String.append "Bearer " t) →
       verifyToken t = inr decoded →
       assetRouter verifyToken headers m p req
         = (λ h, h (mkRequest (Some decoded) (req_params_id req) (req_body req)))
             <$> assetRoutes m p
       ∧ ∀ someone,
           assetRouter verifyToken headers m p
             (mkRequest someone (req_params_id req) (req_body req))
           = assetRouter verifyToken headers m p req).
Proof.
  split.
  - intros Hbad. unfold assetRouter.
    destruct (authMiddleware verifyToken headers req) as [resp|req'] eqn:E.
    + exists resp. split; [done|]. split; [|done].
      by destruct (proj2 (authMiddleware_cases headers req req) resp E).
    + apply (proj1 (authMiddleware_cases headers req req')) in E
        as (t & d & Ht & Hv & _).
      by destruct (Hbad t d Ht).
  - intros t d Ht Hv. unfold assetRouter.
    rewrite (authMiddleware_bearer headers req t Ht), Hv. unfold set_user.
    split; [by destruct (assetRoutes m p)|].
    intros someone. by rewrite (authMiddleware_bearer headers _ t Ht), Hv.
Qed.

End Gate.

Section EndToEnd.

Variable verifyToken : string → Exn + JwtPayload.
Variable generateToken : JwtPayload → string.

(** X18. A token and the list. When the request carries ["Bearer "] and
    the token made for claims [p], and that token verifies to [p], a GET of
    the collection through the router answers 200 with the assets whose
    owner is [p]'s user id, and only those, newest first; nothing else of
    the request decides whose assets are shown. *)
Theorem token_opens_own_list
    (headers : gmap string string) (req : Request) (db : Db) (p : JwtPayload) :
  headers !! "authorization"
    = Some (String.append "Bearer " (generateToken p)) →
  verifyToken (generateToken p) = inr p →
  jwt_userId p ≠ 0 →
  ∃ prog l,
    assetRouter verifyToken headers GET root req = Some prog
    ∧ (run prog db).1 = (inr (mkResponse 200 (assets_json l)), db)
    ∧ (∀ a, a ∈ l ↔ ∃ i, assets db !! i = Some a ∧ asset_userId a = jwt_userId p)
    ∧ StronglySorted (λ a b, asset_createdAt b ≤ asset_createdAt a) l.
Proof.
  intros Hh Hv Hz.
  exists (getAssets (set_user req p)), (listed (jwt_userId p) db).
  split.
  { unfold assetRouter. by rewrite (authMiddleware_bearer _ _ _ _ Hh), Hv. }
  split.
  { by rewrite (run_getAssets (set_user req p) db (jwt_userId p) eq_refl Hz). }
  split.
  - intros a. unfold listed.
    rewrite merge_sort_Permutation, list_elem_of_filter, elem_of_rows.
    unfold owned_by. split.
    + intros [Ho [i Hi]]. eauto.
    + intros (i & Hi & Ho). eauto.
  - apply (StronglySorted_merge_sort newer_first).
Qed.

(** X19. From the browser to the verifier. With a non-empty token in
    [localStorage], the request interceptor sets the [Authorization] header
    to ["Bearer "] and the token, and the middleware that receives this
    header verifies exactly that token. With no token, or an empty one, the
    interceptor leaves the headers alone, and a request that had no such
    header is answered 401 with the no-token message. *)
Theorem browser_token_reaches_verifier
    (b : Browser) (base server_headers : gmap string string) (req : Request) :
  server_headers !! "authorization"
    = request_interceptor b base !! "Authorization" →
  (∀ t, localStorage b !! "token" = Some t → t ≠ "" →
     request_interceptor b base
       = <["Authorization" := String.append "Bearer " t]> base
     ∧ authMiddleware verifyToken server_headers req
         = match verifyToken t with
           | inr decoded => inr (set_user req decoded)
           | inl _ => inl bad_token
           end)
  ∧ (localStorage b !! "token" = None ∨ localStorage b !! "token" = Some "" →
     request_interceptor b base = base
     ∧ (base !! "Authorization" = None →
        authMiddleware verifyToken server_headers req = inl no_token)).
Proof.
  intros Hwire. split.
  - intros t Ht Ht0.
    assert (request_interceptor b base
              = <["Authorization" := String.append "Bearer " t]> base) as E.
    { unfold request_interceptor. by rewrite Ht, (nonempty_truthy _ Ht0). }
    split; [done|]. apply authMiddleware_bearer.
    by rewrite Hwire, E, lookup_insert_eq.
  - intros Hnone.
    assert (request_interceptor b base = base) as E.
    { unfold request_interceptor. by destruct Hnone as [->| ->]. }
    split; [done|]. intros Hbase. apply authMiddleware_no_bearer.
    intros t. by rewrite Hwire, E, Hbase.
Qed.

(** X20. A 401 logs the browser out. When a response comes back as an
    error with status 401, the response interceptor removes [token] and
    [user] from [localStorage], leaves every other key, and sends the page
    to [/login]; the next request then goes out with the headers it had,
    and if they had no [Authorization] the middleware answers it 401 with
    the no-token message. On any other error, with or without a response,
    the interceptor changes nothing. *)
Theorem unauthorized_response_logs_out
    (b : Browser) (st : option Z)
    (base server_headers : gmap string string) (req : Request) :
  let b' := response_error_interceptor st b in
  (st = Some 401 →
     localStorage b' !! "token" = None
     ∧ localStorage b' !! "user" = None
     ∧ (∀ k, k ≠ "token" → k ≠ "user" → localStorage b' !! k = localStorage b !! k)
     ∧ location_href b' = "/login"
     ∧ request_interceptor b' base = base
     ∧ (base !! "Authorization" = None →
        server_headers !! "authorization"
          = request_interceptor b' base !! "Authorization" →
        authMiddleware verifyToken server_headers req = inl no_token))
  ∧ (st ≠ Some 401 → b' = b).
Proof.
  intros b'. unfold b', response_error_interceptor. split.
  - intros ->. rewrite bool_decide_eq_true_2 by done. simpl.
    assert (delete "user" (delete "token" (localStorage b)) !! "token" = None) as Ht.
    { rewrite lookup_delete_ne by done. apply lookup_delete_eq. }
    split; [done|]. split; [apply lookup_delete_eq|].
    split; [intros k H1 H2; by rewrite !lookup_delete_ne|].
    split; [done|].
    assert (request_interceptor
              (mkBrowser (delete "user" (delete "token" (localStorage b))) "/login")
              base = base) as E.
    { unfold request_interceptor. simpl. by rewrite Ht. }
    split; [done|]. intros Hbase Hwire. apply authMiddleware_no_bearer.
    intros t. by rewrite Hwire, E, Hbase.
  - intros Hne. by rewrite bool_decide_eq_false_2.
Qed.

End EndToEnd.

(** ** Instances of the further properties on the sample data *)

Lemma list_after_add_witness :
  ∃ a l l',
    res_status_json 201 (asset_json "资产添加成功" alice_btc)
      = mkResponse 201 (asset_json "资产添加成功" a)
    ∧ (run (getAssets alice_lists) sample_db).1.1
        = inr (mkResponse 200 (assets_json l))
    ∧ (run (getAssets alice_lists) (served (addAsset alice_adds_btc) sample_db)).1.1
        = inr (mkResponse 200 (assets_json l'))
    ∧ (userId_of alice_adds_btc = Some 1 → l' ≡ₚ a :: l)
    ∧ (userId_of alice_adds_btc ≠ Some 1 → l' ≡ₚ l).
Proof.
  apply (list_after_add alice_adds_btc alice_lists sample_db
           (served (addAsset alice_adds_btc) sample_db)
           (res_status_json 201 (asset_json "资产添加成功" alice_btc)) 1);
    [vm_compute; reflexivity | reflexivity | reflexivity | lia].
Defined.

Lemma list_after_update_witness :
  ∃ a a' l l',
    assets sample_db !! req_params_id bob_clears_notes = Some a
    ∧ res_json (asset_json "资产更新成功" bob_aapl_cleared)
        = mkResponse 200 (asset_json "资产更新成功" a')
    ∧ (run (getAssets alice_lists) sample_db).1.1
        = inr (mkResponse 200 (assets_json l))
    ∧ (run (getAssets alice_lists) sample_db_cleared).1.1
        = inr (mkResponse 200 (assets_json l'))
    ∧ (userId_of bob_clears_notes = Some 1 → a :: l' ≡ₚ a' :: l)
    ∧ (userId_of bob_clears_notes ≠ Some 1 → l' ≡ₚ l).
Proof.
  apply (list_after_update bob_clears_notes alice_lists sample_db
           sample_db_cleared
           (res_json (asset_json "资产更新成功" bob_aapl_cleared)) 1);
    [vm_compute; reflexivity | reflexivity | reflexivity | lia].
Defined.

Lemma list_after_delete_witness :
  ∃ db' l l',
    (run (deleteAsset bob_deletes_aapl) sample_db).1
      = (inr (mkResponse 200 (message_json "资产删除成功")), db')
    ∧ (run (getAssets (mkRequest (Some bob_token) 0 ∅)) sample_db).1.1
        = inr (mkResponse 200 (assets_json l))
    ∧ (run (getAssets (mkRequest (Some bob_token) 0 ∅)) db').1.1
        = inr (mkResponse 200 (assets_json l'))
    ∧ ((2 : Z) = 2 → l ≡ₚ bob_aapl :: l')
    ∧ ((2 : Z) ≠ 2 → l' ≡ₚ l).
Proof.
  apply (list_after_delete bob_deletes_aapl (mkRequest (Some bob_token) 0 ∅)
           sample_db bob_aapl 2 2);
    [reflexivity | lia | reflexivity | reflexivity | reflexivity | lia].
Defined.


Lemma register_password_not_a_string_witness :
  ∃ t,
    (run (register sample_hashPassword sample_generateToken
            register_numeric_password) sample_db).2
      = existT _ (user_findFirst (JStr "c@x.com") (JStr "carol")) :: t
    ∧ (run (register sample_hashPassword sample_generateToken
              register_numeric_password) sample_db).1.1
        ≠ inr password_too_short.
Proof.
  assert (He : "c@x.com" ≠ "") by discriminate.
  assert (Hn : "carol" ≠ "") by discriminate.
  apply (register_password_not_a_string sample_hashPassword sample_generateToken
           register_numeric_password sample_db "c@x.com" "carol"
           eq_refl He eq_refl Hn eq_refl).
  intros p H. vm_compute in H. discriminate.
Defined.

Lemma no_user_is_carol :
  ∀ x, x ∈ users sample_db → user_email x ≠ "c@x.com" ∧ user_username x ≠ "carol".
Proof.
  intros x Hx.
  assert (head (filter (user_matches "c@x.com" "carol") (users sample_db)) = None)
    as Hnone by (vm_compute; reflexivity).
  pose proof (proj1 (head_filter_None _ _) Hnone x Hx) as Hno.
  unfold user_matches in Hno. tauto.
Defined.

Lemma no_user_under_carol :
  ∀ x, x ∈ users sample_db → user_email x ≠ "carol" ∧ user_username x ≠ "carol".
Proof.
  intros x Hx.
  assert (head (filter (user_matches "carol" "carol") (users sample_db)) = None)
    as Hnone by (vm_compute; reflexivity).
  pose proof (proj1 (head_filter_None _ _) Hnone x Hx) as Hno.
  unfold user_matches in Hno. tauto.
Defined.

Lemma register_creates_user_witness :
  (run (register sample_hashPassword sample_generateToken register_carol)
       sample_db).1
    = (inr (mkResponse 201
              (auth_json "注册成功"
                 (mkPublicUser 3 "c@x.com" "carol" (Some 200))
                 (sample_generateToken (mkJwtPayload 3 "c@x.com" "carol")))),
       mkDb (assets sample_db) 4
            (users sample_db ++ [mkUser 3 "c@x.com" "carol" "hash:secret1" 200])
            4 200).
Proof.
  assert (He : "c@x.com" ≠ "") by discriminate.
  assert (Hn : "carol" ≠ "") by discriminate.
  assert (Hl : (6 ≤ String.length "secret1")%nat) by (simpl; lia).
  exact (register_creates_user sample_hashPassword sample_generateToken
           register_carol sample_db "c@x.com" "carol" "secret1" "hash:secret1"
           eq_refl He eq_refl Hn eq_refl Hl no_user_is_carol eq_refl).
Defined.

Lemma login_succeeds_only_if_verified_witness :
  ∃ i user,
    field (req_body login_alice) "emailOrUsername" = JStr i
    ∧ user ∈ users sample_db
    ∧ (user_email user = i ∨ user_username user = i)
    ∧ sample_comparePassword (field (req_body login_alice) "password")
        (user_password user) = inr true.
Proof.
  destruct (login_succeeds_only_if_verified sample_comparePassword
              sample_generateToken login_alice sample_db sample_db
              (res_json (auth_json "登录成功"
                           (mkPublicUser 1 "a@x.com" "alice" None)
                           (sample_generateToken alice_token))))
    as (i & user & Hi & Hin & Hm & Hc & _).
  - vm_compute. reflexivity.
  - reflexivity.
  - exists i, user. repeat split; assumption.
Defined.

Lemma register_then_login_witness :
  (run (login sample_comparePassword sample_generateToken login_carol)
       (run (register sample_hashPassword sample_generateToken register_carol)
            sample_db).1.2).1.1
    = inr (mkResponse 200
             (auth_json "登录成功"
                (mkPublicUser 3 "c@x.com" "carol" None)
                (sample_generateToken (mkJwtPayload 3 "c@x.com" "carol")))).
Proof.
  assert (He : "c@x.com" ≠ "") by discriminate.
  assert (Hn : "carol" ≠ "") by discriminate.
  assert (Hl : (6 ≤ String.length "secret1")%nat) by (simpl; lia).
  pose proof (register_then_login sample_hashPassword sample_comparePassword
                sample_generateToken register_carol login_carol sample_db
                "c@x.com" "carol" "secret1" "hash:secret1" "carol"
                eq_refl He eq_refl Hn eq_refl Hl no_user_is_carol eq_refl
                eq_refl eq_refl (or_intror eq_refl) eq_refl no_user_under_carol)
    as H.
  simpl in H. by rewrite H.
Defined.

Lemma token_opens_own_list_witness :
  ∃ prog l,
    assetRouter sample_verifyToken bob_headers GET root (mkRequest None 0 ∅)
      = Some prog
    ∧ (run prog sample_db).1 = (inr (mkResponse 200 (assets_json l)), sample_db)
    ∧ (∀ a, a ∈ l ↔ ∃ i, assets sample_db !! i = Some a ∧ asset_userId a = 2)
    ∧ StronglySorted (λ a b, asset_createdAt b ≤ asset_createdAt a) l.
Proof.
  apply (token_opens_own_list sample_verifyToken sample_generateToken
           bob_headers (mkRequest None 0 ∅) sample_db bob_token);
    [reflexivity | reflexivity | simpl; lia].
Defined.

Lemma browser_token_reaches_verifier_witness :
  authMiddleware sample_verifyToken
    {["authorization" := "Bearer token:alice"]} (mkRequest None 0 ∅)
    = inr (set_user (mkRequest None 0 ∅) alice_token).
Proof.
  assert (Ht : "token:alice" ≠ "") by discriminate.
  exact (proj2 (proj1 (browser_token_reaches_verifier sample_verifyToken
           alice_browser json_headers
           {["authorization" := "Bearer token:alice"]} (mkRequest None 0 ∅)
           eq_refl) "token:alice" eq_refl Ht)).
Defined.

(** ** updateAsset: a field of the wrong type *)

(** X21. An update by the owner in which the name or the type is truthy
    but not a string, or the notes are a number or a boolean ([0] and
    [false] included: only [undefined] counts as notes left out), is passed
    to the store, which refuses it: the answer is the server error (500)
    after the lookup and the refused update, and the store is as it was. *)
Theorem updateAsset_field_not_a_string (req : Request) (db : Db) (a : Asset) (u : Z) :
  let name := field (req_body req) "name" in
  let type := field (req_body req) "type" in
  let notes := field (req_body req) "notes" in
  userId_of req = Some u → u ≠ 0 →
  assets db !! req_params_id req = Some a → asset_userId a = u →
  (truthy name = true ∧ ∀ s, name ≠ JStr s)
  ∨ (truthy type = true ∧ ∀ s, type ≠ JStr s)
  ∨ (∃ m, notes = JNum m) ∨ (∃ b, notes = JBool b) →
  (run (updateAsset req) db).1 = (inr internal_error, db)
  ∧ status internal_error = 500.
Proof.
  intros name type notes Hu Hz Ha Ho Hbad. split; [|done].
  rewrite (run_updateAsset_owned req db a u Hu Hz Ha Ho).
  assert (exec (asset_update (req_params_id req) (update_data req a)) db
            = (inl PrismaClientValidationError, db)) as ->; [|done].
  unfold exec, update_data. cbn [aui_name aui_type aui_notes].
  fold name type notes.
  destruct Hbad as [[Ht Hs]|[[Ht Hs]|[[m Hm]|[b Hb]]]].
  - unfold js_or at 1. rewrite Ht.
    destruct name as [| |b|m|s]; try done. by destruct (Hs s).
  - destruct (string_patch (js_or name _)); [|done].
    unfold js_or at 1. rewrite Ht.
    destruct type as [| |b|m|s]; try done. by destruct (Hs s).
  - rewrite Hm. unfold strict_eq. rewrite bool_decide_eq_false_2 by done. simpl.
    destruct (string_patch (js_or name _)); [|done].
    by destruct (string_patch (js_or type _)).
  - rewrite Hb. unfold strict_eq. rewrite bool_decide_eq_false_2 by done. simpl.
    destruct (string_patch (js_or name _)); [|done].
    by destruct (string_patch (js_or type _)).
Qed.

Lemma updateAsset_field_not_a_string_witness :
  (run (updateAsset (mkRequest (Some bob_token) 1
                       (json_object [("notes", JBool false)]))) sample_db).1
    = (inr internal_error, sample_db).
Proof.
  assert (Hz : (2 : Z) ≠ 0) by lia.
  refine (proj1 (updateAsset_field_not_a_string
                   (mkRequest (Some bob_token) 1
                      (json_object [("notes", JBool false)]))
                   sample_db bob_aapl 2 eq_refl Hz eq_refl eq_refl _)).
  right. right. right. exists false. reflexivity.
Defined.

Lemma failed_request_changes_nothing_witness :
  served (addAsset bob_adds_aapl) sample_db = sample_db.
Proof.
  exact (proj1 (proj2 (proj2 (failed_request_changes_nothing
           sample_hashPassword sample_comparePassword sample_generateToken
           bob_adds_aapl sample_db)))
         conflict (served (addAsset bob_adds_aapl) sample_db)
         eq_refl ltac:(simpl; lia)).
Defined.

Lemma register_validation_witness :
  register sample_hashPassword sample_generateToken
    (mkRequest None 0
       (json_object [("email", JStr "c@x.com"); ("username", JStr "carol");
                     ("password", JStr "12345")]))
    = Ret password_too_short.
Proof.
  assert (Hp : "12345" ≠ "") by discriminate.
  assert (Hl : (String.length "12345" < 6)%nat) by (simpl; lia).
  exact (proj1 (proj2 (register_validation sample_hashPassword sample_generateToken
           (mkRequest None 0
              (json_object [("email", JStr "c@x.com"); ("username", JStr "carol");
                            ("password", JStr "12345")]))))
         "12345" eq_refl eq_refl eq_refl Hp Hl).
Defined.

Lemma authMiddleware_passes_iff_witness :
  authMiddleware sample_verifyToken bob_headers (mkRequest (Some alice_token) 1 ∅)
    = inr (mkRequest (Some bob_token) 1 ∅).
Proof.
  apply (proj1 (authMiddleware_passes_iff sample_verifyToken bob_headers
                  (mkRequest (Some alice_token) 1 ∅)
                  (mkRequest (Some bob_token) 1 ∅))).
  exists "token:bob", bob_token. repeat split; reflexivity.
Defined.

Lemma assetRouter_gate_witness :
  ∃ resp,
    assetRouter sample_verifyToken {["authorization" := "Bearer token:mallory"]}
      DELETE by_id (mkRequest (Some bob_token) 1 ∅) = Some (Ret resp)
    ∧ status resp = 401
    ∧ ∀ env db, run_with env (Ret resp) db = (inr resp, db, []).
Proof.
  apply (proj1 (assetRouter_gate sample_verifyToken
                  {["authorization" := "Bearer token:mallory"]}
                  DELETE by_id (mkRequest (Some bob_token) 1 ∅))).
  intros t decoded Ht.
  assert (Some (String.append "Bearer " "token:mallory")
            = Some (String.append "Bearer " t)) as E by exact Ht.
  pose proof (append_cancel_l "Bearer " _ _ (Some_inj _ _ E)) as <-.
  discriminate.
Defined.

Lemma unauthorized_response_logs_out_witness :
  localStorage (response_error_interceptor (Some 401) alice_browser) !! "token"
    = None
  ∧ request_interceptor (response_error_interceptor (Some 401) alice_browser)
      json_headers = json_headers.
Proof.
  destruct (proj1 (unauthorized_response_logs_out sample_verifyToken
                     alice_browser (Some 401) json_headers ∅
                     (mkRequest None 0 ∅)) eq_refl)
    as (Ht & _ & _ & _ & Hreq & _).
  split; [exact Ht | exact Hreq].
Defined.
